(** * cased-tf: the Terraform drift analysis command, embedded and verified

    A shallow embedding of [cased_tf/__init__.py]: the configuration loader,
    the Terraform state collector, the client of the analysis service, the
    report printer and the [analyze] command that chains them.

    Python strings are modelled by [string] holding their UTF-8 bytes; the
    functions below that count or split characters do so by code point.
    Values decoded from JSON or YAML are modelled by [value]; fractional
    numbers are outside the model.  What the program prints and what it asks
    of the outside (a subprocess, an HTTP request) is recorded as a list of
    [event]s, and a raised exception ends a computation early. *)

From Stdlib Require Import String Ascii List ZArith Bool Arith Lia.
From Stdlib Require Import DecimalString.
Import ListNotations.
Local Open Scope string_scope.

(** ** Python strings *)
Module Str.

(** The line feed, written [\n] in the source. *)
Definition nl : string := String "010"%char EmptyString.

(** [c in chars], for a single byte [c]. *)
Fixpoint mem (c : ascii) (chars : string) : bool :=
  match chars with
  | EmptyString => false
  | String d rest => Ascii.eqb c d || mem c rest
  end.

(** [s.rstrip(chars)]: drops the longest suffix made of bytes of [chars]. *)
Fixpoint rstrip (chars s : string) : string :=
  match s with
  | EmptyString => EmptyString
  | String c rest =>
      match rstrip chars rest with
      | EmptyString => if mem c chars then EmptyString else String c EmptyString
      | kept => String c kept
      end
  end.

(** [s.startswith(p)]. *)
Definition startswith (s p : string) : bool := String.prefix p s.

(** The last [n] bytes dropped from the front: [s[n:]] on bytes. *)
Fixpoint drop (n : nat) (s : string) : string :=
  match n, s with
  | O, _ => s
  | S _, EmptyString => EmptyString
  | S k, String _ rest => drop k rest
  end.

(** [s.endswith(p)]. *)
Definition endswith (s p : string) : bool :=
  (String.length p <=? String.length s)%nat
  && String.eqb (drop (String.length s - String.length p) s) p.

(** A byte that continues a UTF-8 sequence ([10xxxxxx]) starts no character. *)
Definition is_continuation (c : ascii) : bool :=
  let n := nat_of_ascii c in (128 <=? n)%nat && (n <? 192)%nat.

(** [s[:n]]: the first [n] characters (code points) of [s]. *)
Fixpoint take_chars (n : nat) (s : string) : string :=
  match s with
  | EmptyString => EmptyString
  | String c rest =>
      if is_continuation c then String c (take_chars n rest)
      else match n with
           | O => EmptyString
           | S k => String c (take_chars k rest)
           end
  end.

(** [len(s)]: the number of characters (code points) of [s]. *)
Fixpoint len (s : string) : nat :=
  match s with
  | EmptyString => O
  | String c rest => if is_continuation c then len rest else S (len rest)
  end.

(** The characters of [s], as iterating over a Python string yields them. *)
Fixpoint chars (s : string) : list string :=
  match s with
  | EmptyString => []
  | String c rest =>
      match chars rest with
      | [] => [String c EmptyString]
      | ch :: more =>
          match ch with
          | String d _ =>
              if is_continuation d then String c ch :: more
              else String c EmptyString :: ch :: more
          | EmptyString => String c EmptyString :: more
          end
      end
  end.

(** [s.replace(old, new)] read from the left, [skip] bytes of a match
    still to pass over.  [old] is not empty. *)
Fixpoint replace_from (old new s : string) (skip : nat) : string :=
  match s with
  | EmptyString => EmptyString
  | String c rest =>
      match skip with
      | S k => replace_from old new rest k
      | O =>
          if String.prefix old s
          then new ++ replace_from old new rest (String.length old - 1)
          else String c (replace_from old new rest 0)
      end
  end.

(** [s.replace(old, new)]: every occurrence of [old], leftmost first and
    without overlap; an empty [old] matches before every character and at
    the end. *)
Definition replace (old new s : string) : string :=
  match old with
  | EmptyString => new ++ String.concat "" (map (fun ch => ch ++ new) (chars s))
  | _ => replace_from old new s 0
  end.

(** [old in s]: [old] occurs somewhere in [s]. *)
Fixpoint contains (old s : string) : bool :=
  String.prefix old s ||
  match s with
  | EmptyString => false
  | String _ rest => contains old rest
  end.

(** [str(n)] for a length. *)
Definition of_nat (n : nat) : string := NilEmpty.string_of_uint (Nat.to_uint n).

End Str.


(** ** Python values decoded from JSON or YAML *)

#[local] Set Warnings "-register-all".

Inductive value : Type :=
| VNone
| VBool (b : bool)
| VInt (z : Z)
| VStr (s : string)
| VList (items : list value)
| VDict (entries : list (string * value)).

(** A dictionary keeps its entries in insertion order; a key is looked up
    from the front. *)
Definition dict := list (string * value).

Fixpoint lookup (d : dict) (k : string) : option value :=
  match d with
  | [] => None
  | (k', v) :: rest => if String.eqb k' k then Some v else lookup rest k
  end.

(** [d[k] = v] on a dictionary: the entry is replaced where the key is bound,
    and added at the end where it is not. *)
Fixpoint dict_set (d : dict) (k : string) (v : value) : dict :=
  match d with
  | [] => [(k, v)]
  | (k', v') :: rest =>
      if String.eqb k' k then (k', v) :: rest else (k', v') :: dict_set rest k v
  end.

(** Python's truth value, as [if x], [not x] and [x or y] test it. *)
Definition truthy (v : value) : bool :=
  match v with
  | VNone => false
  | VBool b => b
  | VInt z => negb (z =? 0)%Z
  | VStr s => negb (String.eqb s "")
  | VList items => match items with [] => false | _ => true end
  | VDict entries => match entries with [] => false | _ => true end
  end.

(** [x or y]. *)
Definition py_or (x y : value) : value := if truthy x then x else y.

(** [v == s] for a string [s]. *)
Definition eq_str (v : value) (s : string) : bool :=
  match v with
  | VStr t => String.eqb t s
  | _ => false
  end.

(** An optional string as Python holds it: [None] or a [str]. *)
Definition of_option (o : option string) : value :=
  match o with
  | Some s => VStr s
  | None => VNone
  end.

(** ** Exceptions, events and computations *)

Inductive exn : Type :=
| UsageError (message : string)      (* click.UsageError *)
| KeyError (key : string)
| TypeError
| AttributeError
| RecursionError
| OSError (message : string)         (* os and subprocess failures *)
| RequestException (message : string) (* requests: transport, status, body *)
| YAMLError (message : string)
| JSONDecodeError
| ClickAbort.                        (* click.Abort *)

Inductive color : Type := green | yellow | blue | red.

(** What a run does that the outside can see. *)
Inductive event : Type :=
| Echo (text : string)                              (* click.echo *)
| Secho (text : string) (fg : color) (bold : bool)  (* click.secho *)
| Run (argv : list string) (cwd : string)           (* subprocess.run *)
| Post (url : string) (body : value) (headers : list (string * string)).
                                                    (* requests.post *)

Inductive outcome (A : Type) : Type :=
| Returned (a : A)
| Raised (e : exn).
Arguments Returned {A} a.
Arguments Raised {A} e.

(** A computation: the events it emitted, in order, and how it ended. *)
Definition IO (A : Type) : Type := list event * outcome A.

Definition ret {A} (a : A) : IO A := ([], Returned a).
Definition raise {A} (e : exn) : IO A := ([], Raised e).
Definition emit (e : event) : IO unit := ([e], Returned tt).

Definition bind {A B} (m : IO A) (k : A -> IO B) : IO B :=
  match m with
  | (t, Returned a) => let (t', r) := k a in ((t ++ t')%list, r)
  | (t, Raised e) => (t, Raised e)
  end.

(** [try: m  except Exception as e: handler e]. *)
Definition try_except {A} (m : IO A) (handler : exn -> IO A) : IO A :=
  match m with
  | (t, Raised e) => let (t', r) := handler e in ((t ++ t')%list, r)
  | done => done
  end.

Definition lift {A} (r : outcome A) : IO A := ([], r).

Declare Scope io_scope.
Delimit Scope io_scope with io.
Notation "x <- m ;; k" := (bind m (fun x => k))
  (at level 61, m at next level, right associativity) : io_scope.
Notation "m ;; k" := (bind m (fun _ => k))
  (at level 61, right associativity) : io_scope.
Local Open Scope io_scope.

Definition trace {A} (m : IO A) : list event := fst m.
Definition result {A} (m : IO A) : outcome A := snd m.

Definition echo (text : string) : IO unit := emit (Echo text).
Definition secho (text : string) (fg : color) (bold : bool) : IO unit :=
  emit (Secho text fg bold).

(** [for x in items: body x], over a Python list. *)
Fixpoint for_list {A} (items : list A) (body : A -> IO unit) : IO unit :=
  match items with
  | [] => ret tt
  | x :: rest => body x ;; for_list rest body
  end.

(** ** Operations on values *)

(** [v[k]] for a string key. *)
Definition subscript (v : value) (k : string) : outcome value :=
  match v with
  | VDict d => match lookup d k with
               | Some x => Returned x
               | None => Raised (KeyError k)
               end
  | _ => Raised TypeError
  end.

(** [v.get(k, default)]: only a dictionary has the method. *)
Definition get_or (v : value) (k : string) (default : value) : outcome value :=
  match v with
  | VDict d => Returned (match lookup d k with Some x => x | None => default end)
  | _ => Raised AttributeError
  end.

(** [v.get(k)]. *)
Definition get (v : value) (k : string) : outcome value := get_or v k VNone.

(** [a + b]: lists and strings concatenate, integers and booleans add. *)
Definition as_int (v : value) : option Z :=
  match v with
  | VInt z => Some z
  | VBool b => Some (if b then 1 else 0)%Z
  | _ => None
  end.

Definition add (a b : value) : outcome value :=
  match a, b with
  | VList x, VList y => Returned (VList (x ++ y)%list)
  | VStr x, VStr y => Returned (VStr (x ++ y))
  | _, _ => match as_int a, as_int b with
            | Some x, Some y => Returned (VInt (x + y))
            | _, _ => Raised TypeError
            end
  end.

(** [k in v] for a string [k]: a key of a dictionary, an item of a list, a
    substring of a string. *)
Definition contains (k : string) (v : value) : outcome bool :=
  match v with
  | VDict d => Returned (match lookup d k with Some _ => true | None => false end)
  | VList items => Returned (existsb (fun x => eq_str x k) items)
  | VStr s => Returned (Str.contains k s)
  | _ => Raised TypeError
  end.

(** [len(v)]. *)
Definition len (v : value) : outcome nat :=
  match v with
  | VList items => Returned (List.length items)
  | VDict entries => Returned (List.length entries)
  | VStr s => Returned (Str.len s)
  | _ => Raised TypeError
  end.

(** [for x in v: body x]: a list yields its items, a dictionary its keys, a
    string its characters; nothing else can be iterated. *)
Definition for_each (v : value) (body : value -> IO unit) : IO unit :=
  match v with
  | VList items => for_list items body
  | VDict entries => for_list (map (fun kv => VStr (fst kv)) entries) body
  | VStr s => for_list (map VStr (Str.chars s)) body
  | _ => raise TypeError
  end.

(** [v.startswith(p)]: a method of strings only. *)
Definition startswith (v : value) (p : string) : outcome bool :=
  match v with
  | VStr s => Returned (Str.startswith s p)
  | _ => Raised AttributeError
  end.

(** ** The outside of the program

    What the interpreter, its libraries, the process environment, the file
    system, the [terraform] binary and the analysis service answer.  A run
    reads them and changes none. *)

Record completed_process : Type := {
  returncode : Z;
  stdout : string;
  stderr : string
}.

Record response : Type := {
  status_code : Z;
  status_error : string;   (* the text of the HTTPError of a 4xx or 5xx status *)
  body : string
}.

Record World : Type := {
  (* the interpreter and the libraries *)
  repr : value -> string;                 (* repr(v), which is str(v) off strings *)
  describe : exn -> string;               (* str(e) of a built-in exception *)
  recursion_limit : nat;                  (* frames left for nested calls *)
  json_dumps : value -> string;           (* json.dumps(v, indent=2) *)
  json_loads : string -> option value;    (* None: json.JSONDecodeError *)
  yaml_safe_load : string -> string + value;       (* inl: yaml.YAMLError *)
  (* the process environment *)
  getenv : string -> option string;
  getcwd : string;
  expanduser : string -> string;
  (* the file system *)
  path_exists : string -> bool;
  read_file : string -> string + string;           (* inl: OSError *)
  listdir : string -> string + list string;        (* inl: OSError *)
  (* the terraform binary, run in a directory, and the analysis service *)
  terraform_show : string -> string + completed_process;   (* inl: OSError *)
  http_post : string -> value -> list (string * string) -> string + response
                                                   (* inl: a transport failure *)
}.

Section Program.

Variable w : World.

(** [str(v)], as an f-string formats a value. *)
Definition py_str (v : value) : string :=
  match v with
  | VStr s => s
  | _ => repr w v
  end.

(** [str(e)]. *)
Definition exn_str (e : exn) : string :=
  match e with
  | UsageError m | OSError m | RequestException m | YAMLError m => m
  | KeyError k => repr w (VStr k)
  | _ => describe w e
  end.

(** [x or <expr>]: the right side is evaluated only when [x] is falsy. *)
Definition or_else (x : value) (y : IO value) : IO value :=
  if truthy x then ret x else y.

(** *** load_config *)

Definition default_locations : list string :=
  [ expanduser w "~/.config/cased/config.yml";
    expanduser w "~/.cased/config.yml";
    ".cased.yml" ].

(** The loop over the default locations: the first that exists is
    announced and kept. *)
Fixpoint first_existing (locations : list string) (config_file : option string)
  : IO (option string) :=
  match locations with
  | [] => ret config_file
  | loc :: rest =>
      if path_exists w loc
      then echo ("Found config file: " ++ loc) ;; ret (Some loc)
      else first_existing rest config_file
  end.

Definition load_config (config_file : option string) : IO value :=
  config_file <-
    (if negb (truthy (of_option config_file))
     then first_existing default_locations config_file
     else ret config_file) ;;
  match config_file with
  | Some path =>
      if negb (truthy (VStr path)) || negb (path_exists w path)
      then echo "No config file found" ;; ret (VDict [])
      else
        try_except
          (text <- lift (match read_file w path with
                         | inl m => Raised (OSError m)
                         | inr text => Returned text
                         end) ;;
           loaded <- lift (match yaml_safe_load w text with
                           | inl m => Raised (YAMLError m)
                           | inr v => Returned v
                           end) ;;
           let config := py_or loaded (VDict []) in
           echo ("Loaded config: " ++ json_dumps w config) ;;
           ret config)
          (fun e => raise (UsageError ("Failed to load config file: " ++ exn_str e)))
  | None => echo "No config file found" ;; ret (VDict [])
  end.

(** *** TerraformAnalyzer *)

Record TerraformAnalyzer : Type := { working_dir : string }.

Definition TerraformAnalyzer_init (dir : option string) : TerraformAnalyzer :=
  {| working_dir := if truthy (of_option dir)
                    then match dir with Some d => d | None => getcwd w end
                    else getcwd w |}.

(** [os.path.join(a, b)] for two parts. *)
Definition path_join (a b : string) : string :=
  if Str.startswith b "/" then b
  else if String.eqb a "" || Str.endswith a "/" then a ++ b
  else a ++ "/" ++ b.

Definition tf_files (names : list string) : list string :=
  filter (fun f => Str.endswith f ".tf") names.

Definition validate_terraform_directory (self : TerraformAnalyzer) : IO unit :=
  names <- lift (match listdir w (working_dir self) with
                 | inl m => Raised (OSError m)
                 | inr names => Returned names
                 end) ;;
  match tf_files names with
  | [] =>
      raise (UsageError
               ("No .tf files found in " ++ working_dir self ++ ". "
                ++ "Please run this command from a directory containing Terraform files "
                ++ "or specify --working-dir"))
  | _ =>
      if negb (path_exists w (path_join (working_dir self) ".terraform"))
      then raise (UsageError "Terraform not initialized. Please run 'terraform init' first.")
      else ret tt
  end.

(** The summary of a module and, below it, of its child modules; [depth]
    is the number of nested calls the interpreter still allows. *)
Fixpoint print_module_resources (depth : nat) (module_data : value) (prefix : string)
  : IO unit :=
  match depth with
  | O => raise RecursionError
  | S depth' =>
      resources <- lift (get_or module_data "resources" (VList [])) ;;
      n <- lift (len resources) ;;
      echo (prefix ++ "- Found " ++ Str.of_nat n ++ " resources in module") ;;
      for_each resources (fun r =>
        type <- lift (get_or r "type" (VStr "")) ;;
        aws <- lift (startswith type "aws_") ;;
        if aws : bool then
          type <- lift (subscript r "type") ;;
          name <- lift (get r "name") ;;
          values <- lift (get_or r "values" (VDict [])) ;;
          id <- lift (get_or values "id" (VStr "no id")) ;;
          echo (prefix ++ "  - " ++ py_str type ++ ": " ++ py_str name
                ++ " (" ++ py_str id ++ ")")
        else ret tt) ;;
      children <- lift (get_or module_data "child_modules" (VList [])) ;;
      for_each children (fun child =>
        address <- lift (get_or child "address" (VStr "unknown")) ;;
        echo (prefix ++ "- Child module: " ++ py_str address) ;;
        print_module_resources depth' child (prefix ++ "  "))
  end.

Definition terraform_argv : list string := ["terraform"; "show"; "-json"].

Definition get_show_output (self : TerraformAnalyzer) : IO value :=
  validate_terraform_directory self ;;
  emit (Run terraform_argv (working_dir self)) ;;
  result <- lift (match terraform_show w (working_dir self) with
                  | inl m => Raised (OSError m)
                  | inr p => Returned p
                  end) ;;
  if negb (returncode result =? 0)%Z
  then raise (UsageError ("terraform show failed:" ++ Str.nl ++ stderr result))
  else
    match json_loads w (stdout result) with
    | None =>
        raise (UsageError
                 ("Failed to parse terraform show output as JSON. "
                  ++ "Output: " ++ Str.take_chars 200 (stdout result) ++ "..."))
    | Some output =>
        echo (Str.nl ++ "Terraform output summary:") ;;
        has_values <- lift (contains "values" output) ;;
        (if has_values : bool then
           echo "- Found values section" ;;
           values <- lift (subscript output "values") ;;
           has_root <- lift (contains "root_module" values) ;;
           if has_root : bool then
             values <- lift (subscript output "values") ;;
             root <- lift (subscript values "root_module") ;;
             print_module_resources (recursion_limit w) root ""
           else ret tt
         else ret tt) ;;
        ret output
    end.

(** *** CasedAPI *)

Record CasedAPI : Type := {
  api_key : value;
  base_url : string
}.

Definition default_api_url : string := "https://app.cased.com".

(** [CasedAPI(api_key, base_url)]: the base URL loses its trailing
    slashes, then every [/api/v1] in it. *)
Definition CasedAPI_init (key url : value) : outcome CasedAPI :=
  match url with
  | VStr s =>
      Returned {| api_key := key;
                  base_url := Str.replace "/api/v1" "" (Str.rstrip "/" s) |}
  | _ => Raised AttributeError
  end.

Definition endpoint (self : CasedAPI) (project : value) : string :=
  base_url self ++ "/api/v1/projects/" ++ py_str project ++ "/infra/local".

Definition payload (environment show_output : value) : value :=
  VDict [("terraform_show_output", show_output); ("environment", environment)].

Definition request_headers (self : CasedAPI) : list (string * string) :=
  [("Authorization", "Bearer " ++ py_str (api_key self));
   ("Content-Type", "application/json")].

(** [response.raise_for_status()]. *)
Definition raise_for_status (r : response) : outcome unit :=
  if (400 <=? status_code r)%Z && (status_code r <? 600)%Z
  then Raised (RequestException (status_error r))
  else Returned tt.

(** [response.json()]. *)
Definition response_json (r : response) : outcome value :=
  match json_loads w (body r) with
  | Some v => Returned v
  | None => Raised JSONDecodeError
  end.

Definition analyze_terraform (self : CasedAPI) (project environment show_output : value)
           (dry_run : bool) : IO value :=
  let url := endpoint self project in
  let payload := payload environment show_output in
  if dry_run then
    secho (Str.nl ++ "=== Dry Run - API Request Details ===" ++ Str.nl) yellow false ;;
    echo ("URL: " ++ url) ;;
    echo (Str.nl ++ "Headers:") ;;
    echo "  Authorization: Bearer [REDACTED]" ;;
    echo "  Content-Type: application/json" ;;
    echo (Str.nl ++ "Payload:") ;;
    echo (json_dumps w payload) ;;
    echo (Str.nl ++ "No API call will be made in dry-run mode.") ;;
    ret (VDict [])
  else
    emit (Post url payload (request_headers self)) ;;
    response <- lift (match http_post w url payload (request_headers self) with
                      | inl m => Raised (RequestException m)
                      | inr r => Returned r
                      end) ;;
    lift (raise_for_status response) ;;
    lift (response_json response).

(** *** print_drift_report *)

Definition report_heading : string :=
  Str.nl ++ "=== Infrastructure Drift Report ===" ++ Str.nl.
Definition success_line : event := Secho "âœ… No resources found" green true.
Definition managed_heading : event := Secho (Str.nl ++ "ðŸ” Managed Resources:") blue true.
Definition unmanaged_heading : event := Secho (Str.nl ++ "âš ï¸  Unmanaged Resources:") yellow true.
Definition missing_heading : event := Secho (Str.nl ++ "âŒ Missing Resources:") red true.

(** The mark that starts the line of a resource. *)
Definition bullet : string := "â€¢".

(** The line that names a resource: service name, name and id. *)
Definition resource_line (resource : value) (fg : color) : IO unit :=
  service_name <- lift (subscript resource "service_name") ;;
  name <- lift (subscript resource "name") ;;
  id <- lift (subscript resource "id") ;;
  secho (bullet ++ " " ++ py_str service_name ++ " - " ++ py_str name
         ++ " (" ++ py_str id ++ ")") fg false.

Definition type_line (resource : value) : IO unit :=
  service_type <- lift (subscript resource "service_type") ;;
  echo ("  Type: " ++ py_str service_type).

Definition change_line (change : value) : IO unit :=
  field <- lift (subscript change "field") ;;
  expected <- lift (subscript change "expected") ;;
  actual <- lift (subscript change "actual") ;;
  echo ("    - " ++ py_str field ++ ": expected " ++ py_str expected
        ++ ", got " ++ py_str actual).

Definition changes_line : event := Secho "  Changes:" yellow false.

(** The body of the loop over the managed resources. *)
Definition print_managed (resource : value) : IO unit :=
  status <- lift (subscript resource "status") ;;
  let status_color := if eq_str status "synced" then green else yellow in
  resource_line resource status_color ;;
  type_line resource ;;
  status <- lift (subscript resource "status") ;;
  echo ("  Status: " ++ py_str status) ;;
  drift <- lift (get resource "drift") ;;
  (if truthy drift then
     emit changes_line ;;
     drift <- lift (subscript resource "drift") ;;
     for_each drift change_line
   else ret tt) ;;
  echo "".

(** The body of the loops over the unmanaged and the missing resources. *)
Definition print_plain (fg : color) (resource : value) : IO unit :=
  resource_line resource fg ;;
  type_line resource ;;
  echo "".

Definition bucket (report : value) (key : string) : outcome value :=
  get_or report key (VList []).

Definition print_drift_report (report : value) : IO unit :=
  if negb (truthy report) then ret tt
  else
    echo report_heading ;;
    managed <- lift (bucket report "managed_resources") ;;
    unmanaged <- lift (bucket report "unmanaged_resources") ;;
    both <- lift (add managed unmanaged) ;;
    missing <- lift (bucket report "missing_resources") ;;
    all_resources <- lift (add both missing) ;;
    if negb (truthy all_resources) then emit success_line
    else
      managed <- lift (bucket report "managed_resources") ;;
      (if truthy managed then
         emit managed_heading ;; for_each managed print_managed
       else ret tt) ;;
      unmanaged <- lift (bucket report "unmanaged_resources") ;;
      (if truthy unmanaged then
         emit unmanaged_heading ;; for_each unmanaged (print_plain yellow)
       else ret tt) ;;
      missing <- lift (bucket report "missing_resources") ;;
      (if truthy missing then
         emit missing_heading ;; for_each missing (print_plain red)
       else ret tt).

(** *** analyze *)

(** [os.path.expanduser(v)]: a path is a string. *)
Definition expanduser_value (v : value) : outcome string :=
  match v with
  | VStr s => Returned (expanduser w s)
  | _ => Raised TypeError
  end.

(** The exceptions [except requests.RequestException] catches. *)
Definition is_request_exception (e : exn) : bool :=
  match e with
  | RequestException _ | JSONDecodeError => true
  | _ => false
  end.

(** The handlers of [analyze]: the error is printed in red and the command
    aborts.  A [subprocess.CalledProcessError] is never raised, since
    [subprocess.run] is called without [check]. *)
Definition on_error (e : exn) : IO unit :=
  (if is_request_exception e
   then secho (Str.nl ++ "Error calling Cased API: " ++ exn_str e) red false
   else secho (Str.nl ++ "Unexpected error: " ++ exn_str e) red false) ;;
  raise ClickAbort.

(** The settings [analyze] has resolved when it builds its client. *)
Record settings : Type := {
  s_project : value;
  s_environment : value;
  s_api_key : value;
  s_api_url : value;
  s_working_dir : option string
}.

(** Lines 269 to 293 of [analyze]: flags, environment variables and the
    loaded configuration [cfg] are merged. *)
Definition resolve (cfg : value) (project environment api_key : option string)
           (api_url : string) (working_dir : option string)
           (dry_run local : bool) : IO settings :=
  api_key <-
    (if negb (truthy (of_option api_key))
     then or_else (of_option (getenv w "CASED_API_KEY")) (lift (get cfg "api_key"))
     else ret (of_option api_key)) ;;
  api_url <-
    (if local then ret (VStr "http://localhost:3000")
     else if String.eqb api_url default_api_url
          then or_else (of_option (getenv w "CASED_API_URL"))
                       (lift (get_or cfg "api_url" (VStr api_url)))
          else ret (VStr api_url)) ;;
  project <- or_else (of_option project) (lift (get cfg "project")) ;;
  if negb (truthy project)
  then raise (UsageError "Project must be specified via --project or config file")
  else
    environment <- or_else (of_option environment) (lift (get cfg "environment")) ;;
    if negb (truthy environment)
    then raise (UsageError "Environment must be specified via --environment or config file")
    else
      working_dir <-
        (if negb (truthy (of_option working_dir))
         then
           configured <- lift (get cfg "working_dir") ;;
           if truthy configured
           then
             configured <- lift (get cfg "working_dir") ;;
             dir <- lift (expanduser_value configured) ;;
             ret (Some dir)
           else ret working_dir
         else ret working_dir) ;;
      if negb dry_run && negb (truthy api_key)
      then raise (UsageError "--api-key is required unless using --dry-run")
      else ret {| s_project := project;
                  s_environment := environment;
                  s_api_key := api_key;
                  s_api_url := api_url;
                  s_working_dir := working_dir |}.

Definition analyze (project environment api_key : option string) (api_url : string)
           (working_dir : option string) (dry_run : bool) (config : option string)
           (local : bool) : IO unit :=
  try_except
    (cfg <- load_config config ;;
     s <- resolve cfg project environment api_key api_url working_dir dry_run local ;;
     let analyzer := TerraformAnalyzer_init (s_working_dir s) in
     api <- lift (CasedAPI_init (py_or (s_api_key s) (VStr "dry-run-key")) (s_api_url s)) ;;
     echo "Running terraform show..." ;;
     show_output <- get_show_output analyzer ;;
     (if dry_run
      then secho (Str.nl ++ "Dry run mode - showing what would be analyzed:") yellow false
      else echo (Str.nl ++ "Analyzing infrastructure...")) ;;
     report <- analyze_terraform api (s_project s) (s_environment s) show_output dry_run ;;
     print_drift_report report)
    on_error.

(** *** The command line

    The options of [analyze] as its decorators declare them to click: an
    option takes the value given on the command line; without one, the
    value of its [envvar] when that variable is set and not empty; without
    either, its default.  The checks of [click.Path] on [--working-dir] and
    [--config] run before [analyze] and are left out. *)
Record flags : Type := {
  f_project : option string;
  f_environment : option string;
  f_api_key : option string;
  f_api_url : option string;
  f_working_dir : option string;
  f_dry_run : bool;
  f_config : option string;
  f_local : bool
}.

Definition option_value (flag : option string) (envvar : string) : option string :=
  match flag with
  | Some v => Some v
  | None => match getenv w envvar with
            | Some v => if String.eqb v "" then None else Some v
            | None => None
            end
  end.

Definition param_api_key (f : flags) : option string :=
  option_value (f_api_key f) "CASED_API_KEY".

Definition param_api_url (f : flags) : string :=
  match option_value (f_api_url f) "CASED_API_URL" with
  | Some v => v
  | None => default_api_url
  end.

(** [cased-tf analyze] with the flags [f]. *)
Definition cli_analyze (f : flags) : IO unit :=
  analyze (f_project f) (f_environment f) (param_api_key f) (param_api_url f)
          (f_working_dir f) (f_dry_run f) (f_config f) (f_local f).

(** What [analyze] resolves from the flags [f] once [cfg] is loaded. *)
Definition cli_resolve (cfg : value) (f : flags) : IO settings :=
  resolve cfg (f_project f) (f_environment f) (param_api_key f) (param_api_url f)
          (f_working_dir f) (f_dry_run f) (f_local f).

End Program.

(** * Specification

    The words the properties below are stated in: what a run is expected to
    print, and when a document, a record or a directory is well formed. *)

(** ** The dry run *)

Definition is_post (e : event) : bool :=
  match e with
  | Post _ _ _ => true
  | _ => false
  end.

(** What a dry run prints for a base URL, a project and a payload. *)
Definition dry_run_output (w : World) (base : string) (project environment show_output : value)
  : list event :=
  [ Secho (Str.nl ++ "=== Dry Run - API Request Details ===" ++ Str.nl) yellow false;
    Echo ("URL: " ++ base ++ "/api/v1/projects/" ++ py_str w project ++ "/infra/local");
    Echo (Str.nl ++ "Headers:");
    Echo "  Authorization: Bearer [REDACTED]";
    Echo "  Content-Type: application/json";
    Echo (Str.nl ++ "Payload:");
    Echo (json_dumps w (payload environment show_output));
    Echo (Str.nl ++ "No API call will be made in dry-run mode.") ].

(** ** The report printer *)

Definition bucket_keys : list string :=
  ["managed_resources"; "unmanaged_resources"; "missing_resources"].

(** The lines of a section below its heading: never bold, never a request. *)
Definition plain (e : event) : Prop :=
  match e with
  | Echo _ => True
  | Secho _ _ bold => bold = false
  | _ => False
  end.

(** The heading under which the printer lists a bucket that is not empty. *)
Definition section_heading (key : string) : event :=
  if String.eqb key "managed_resources" then managed_heading
  else if String.eqb key "unmanaged_resources" then unmanaged_heading
  else missing_heading.

(** ** Managed resources and their changes *)

Definition record_keys : list string :=
  ["service_name"; "name"; "id"; "service_type"; "status"].
Definition change_keys : list string := ["field"; "expected"; "actual"].

(** [r] is an object that binds every key of [keys]. *)
Definition has_keys (r : value) (keys : list string) : Prop :=
  forall k, In k keys -> exists v, subscript r k = Returned v.

(** The value under [k], for a key that is bound. *)
Definition item (r : value) (k : string) : value :=
  match subscript r k with
  | Returned v => v
  | Raised _ => VNone
  end.

(** The drift entries of a record: those of its [drift] list, none when
    there is no such list. *)
Definition drift_entries (r : value) : list value :=
  match get r "drift" with
  | Returned (VList entries) => entries
  | _ => []
  end.

(** A managed record as the service sends it: the five fields, and a [drift]
    that is absent, null or a list of field/expected/actual triples. *)
Definition well_formed (r : value) : Prop :=
  has_keys r record_keys
  /\ (get r "drift" = Returned VNone \/ exists entries, get r "drift" = Returned (VList entries))
  /\ Forall (fun c => has_keys c change_keys) (drift_entries r).

Definition change_event (w : World) (c : value) : event :=
  Echo ("    - " ++ py_str w (item c "field") ++ ": expected "
        ++ py_str w (item c "expected") ++ ", got " ++ py_str w (item c "actual")).

(** The "Changes:" block of a record: nothing without drift entries, else
    the line and one line per entry. *)
Definition changes_block (w : World) (r : value) : list event :=
  match drift_entries r with
  | [] => []
  | entries => changes_line :: map (change_event w) entries
  end.

Definition name_event (w : World) (r : value) (fg : color) : event :=
  Secho (bullet ++ " " ++ py_str w (item r "service_name") ++ " - " ++ py_str w (item r "name")
         ++ " (" ++ py_str w (item r "id") ++ ")") fg false.

(** What the printer emits for one managed record. *)
Definition managed_block (w : World) (r : value) : list event :=
  [ name_event w r (if eq_str (item r "status") "synced" then green else yellow);
    Echo ("  Type: " ++ py_str w (item r "service_type"));
    Echo ("  Status: " ++ py_str w (item r "status")) ]
  ++ changes_block w r ++ [Echo ""].

(** ** Strings: what [rstrip], [replace] and [endswith] compute *)

(** Every byte of [s] is one of [chars]. *)
Fixpoint all_in (chars s : string) : bool :=
  match s with
  | EmptyString => true
  | String c rest => Str.mem c chars && all_in chars rest
  end.


(** ** The endpoint *)


(** The base URL read as a path: its segments are the parts between
    slashes. *)
Fixpoint split_on (sep : ascii) (s : string) : list string :=
  match s with
  | EmptyString => [EmptyString]
  | String c rest =>
      if Ascii.eqb c sep then EmptyString :: split_on sep rest
      else match split_on sep rest with
           | seg :: more => String c seg :: more
           | [] => [String c EmptyString]
           end
  end.

(** The segments without the API-version segment [api/v1], wherever it
    stands. *)
Fixpoint drop_version (segments : list string) : list string :=
  match segments with
  | [] => []
  | a :: tl =>
      match tl with
      | b :: rest =>
          if String.eqb a "api" && String.eqb b "v1" then drop_version rest
          else a :: drop_version tl
      | [] => [a]
      end
  end.

(** The base URL as the specification strips it: without its API-version
    path segments and without slashes at its end. *)
Definition segment_stripped (url : string) : string :=
  Str.rstrip "/" (String.concat "/" (drop_version (split_on "/" url))).

(** ** The working directory *)

Definition not_initialized : string :=
  "Terraform not initialized. Please run 'terraform init' first.".

(** ** The state collector *)

(** A computation that raises no usage error. *)
Definition no_usage {A} (m : IO A) : Prop :=
  forall message, result m <> Raised (UsageError message).

(** A resource of the state document as Terraform writes it: an object whose
    [type], when there, is a string and whose [values], when there, is an
    object. *)
Definition resource_ok (r : value) : Prop :=
  (exists s, get_or r "type" (VStr "") = Returned (VStr s))
  /\ (exists vs, get_or r "values" (VDict []) = Returned (VDict vs)).

(** A module of the state document nested less than [n] deep: an object
    whose resources and child modules, when there, are lists of resources
    and of modules. *)
Inductive module_ok : nat -> value -> Prop :=
| module_ok_intro (n : nat) (d : dict) (resources children : list value) :
    get_or (VDict d) "resources" (VList []) = Returned (VList resources) ->
    Forall resource_ok resources ->
    get_or (VDict d) "child_modules" (VList []) = Returned (VList children) ->
    Forall (module_ok n) children ->
    module_ok (S n) (VDict d).

(** A state document whose summary can be printed: no [values], or [values]
    without a [root_module], or a root module nested no deeper than the
    interpreter allows. *)
Definition summary_ok (w : World) (output : value) : Prop :=
  contains "values" output = Returned false
  \/ exists values,
       subscript output "values" = Returned values
       /\ (contains "root_module" values = Returned false
           \/ exists root n,
                subscript values "root_module" = Returned root
                /\ module_ok n root /\ (n <= recursion_limit w)%nat).

Definition show_failed (p : completed_process) : string :=
  "terraform show failed:" ++ Str.nl ++ stderr p.

Definition parse_failed (p : completed_process) : string :=
  "Failed to parse terraform show output as JSON. Output: "
  ++ Str.take_chars 200 (stdout p) ++ "...".

(** ** The configuration loader *)

Definition no_config : IO value := ([Echo "No config file found"], Returned (VDict [])).

Definition load_failed (message : string) : exn :=
  UsageError ("Failed to load config file: " ++ message).

(** What loading the file at [path] gives: a usage error when it cannot be
    read or parsed, else the parsed mapping, announced. *)
Definition load_file (w : World) (path : string) : IO value :=
  match read_file w path with
  | inl m => raise (load_failed m)
  | inr text =>
      match yaml_safe_load w text with
      | inl m => raise (load_failed m)
      | inr v =>
          ([Echo ("Loaded config: " ++ json_dumps w (py_or v (VDict [])))],
           Returned (py_or v (VDict [])))
      end
  end.

(** ** Precedence of the settings *)

(** [cfg.get(k)] on a mapping. *)
Definition config_value (d : dict) (k : string) : value :=
  match lookup d k with
  | Some v => v
  | None => VNone
  end.


(** The values [resolve] settles on, as plain expressions. *)
Definition resolved_api_key (w : World) (d : dict) (api_key : option string) : value :=
  if truthy (of_option api_key) then of_option api_key
  else py_or (of_option (getenv w "CASED_API_KEY")) (config_value d "api_key").

Definition resolved_api_url (w : World) (d : dict) (api_url : string) (local : bool) : value :=
  if local then VStr "http://localhost:3000"
  else if String.eqb api_url default_api_url
       then py_or (of_option (getenv w "CASED_API_URL"))
                  (match lookup d "api_url" with Some v => v | None => VStr api_url end)
       else VStr api_url.

(** * Sample worlds and documents *)

(** A world in which nothing is configured and nothing is on disk. *)
Definition bare_world : World := {|
  repr := fun _ => "<value>";
  describe := fun _ => "<error>";
  recursion_limit := 1000;
  json_dumps := fun _ => "<json>";
  json_loads := fun s => if String.eqb s "{}" then Some (VDict []) else None;
  yaml_safe_load := fun s => if String.eqb s "" then inr VNone else inl "<yaml error>";
  getenv := fun _ => None;
  getcwd := "/work";
  expanduser := fun p => p;
  path_exists := fun _ => false;
  read_file := fun _ => inl "<no such file>";
  listdir := fun _ => inr [];
  terraform_show := fun _ => inl "<terraform not found>";
  http_post := fun _ _ _ => inl "<connection refused>"
|}.

(** A report whose three buckets are there and empty. *)
Definition empty_buckets_report : value :=
  VDict [("managed_resources", VList []);
         ("unmanaged_resources", VList []);
         ("missing_resources", VList [])].

(** A record whose status is not "synced" and that has no drift entries. *)
Definition drifted_record : value :=
  VDict [("service_name", VStr "s3"); ("name", VStr "logs"); ("id", VStr "b-1");
         ("service_type", VStr "storage"); ("status", VStr "drifted");
         ("drift", VList [])].

Definition drifted_report : value := VDict [("managed_resources", VList [drifted_record])].

Definition synced_record : value :=
  VDict [("service_name", VStr "s3"); ("name", VStr "assets"); ("id", VStr "b-2");
         ("service_type", VStr "storage"); ("status", VStr "synced")].

Definition changed_record : value :=
  VDict [("service_name", VStr "s3"); ("name", VStr "logs"); ("id", VStr "b-1");
         ("service_type", VStr "storage"); ("status", VStr "drifted");
         ("drift", VList [VDict [("field", VStr "acl"); ("expected", VStr "private");
                                 ("actual", VStr "public-read")]])].

Definition sample_report : value :=
  VDict [("managed_resources", VList [synced_record; changed_record])].

(** A directory with Terraform files that was never initialised. *)
Definition uninitialized_world : World := {|
  repr := repr bare_world;
  describe := describe bare_world;
  recursion_limit := recursion_limit bare_world;
  json_dumps := json_dumps bare_world;
  json_loads := json_loads bare_world;
  yaml_safe_load := yaml_safe_load bare_world;
  getenv := getenv bare_world;
  getcwd := getcwd bare_world;
  expanduser := expanduser bare_world;
  path_exists := fun _ => false;
  read_file := read_file bare_world;
  listdir := fun _ => inr ["README.md"; "main.tf"];
  terraform_show := terraform_show bare_world;
  http_post := http_post bare_world
|}.

(** A prepared directory and a given run of [terraform show -json]. *)
Definition terraform_world (names : list string) (initialized : bool)
           (p : completed_process) (parsed : option value) : World := {|
  repr := repr bare_world;
  describe := describe bare_world;
  recursion_limit := recursion_limit bare_world;
  json_dumps := json_dumps bare_world;
  json_loads := fun s => if String.eqb s (stdout p) then parsed else None;
  yaml_safe_load := yaml_safe_load bare_world;
  getenv := getenv bare_world;
  getcwd := getcwd bare_world;
  expanduser := expanduser bare_world;
  path_exists := fun _ => initialized;
  read_file := read_file bare_world;
  listdir := fun _ => inr names;
  terraform_show := fun _ => inr p;
  http_post := http_post bare_world
|}.

Definition clean_exit (out : string) : completed_process :=
  {| returncode := 0; stdout := out; stderr := "" |}.

Definition failed_exit : completed_process :=
  {| returncode := 1; stdout := ""; stderr := "Error: No state file was found!" |}.

(** A state document with two resources and a child module. *)
Definition sample_state : value :=
  VDict [("format_version", VStr "1.0");
         ("values",
          VDict [("root_module",
                  VDict [("resources",
                          VList [VDict [("address", VStr "aws_s3_bucket.logs");
                                        ("type", VStr "aws_s3_bucket");
                                        ("name", VStr "logs");
                                        ("values", VDict [("id", VStr "b-1")])];
                                 VDict [("type", VStr "null_resource");
                                        ("name", VStr "wait")]]);
                         ("child_modules",
                          VList [VDict [("address", VStr "module.net");
                                        ("resources",
                                         VList [VDict [("type", VStr "aws_vpc");
                                                       ("name", VStr "main")]])]])])])].

(** A home directory that holds [~/.cased/config.yml] and nothing else. *)
Definition home_config : value := VDict [("project", VStr "acme/infra")].

Definition home_world : World := {|
  repr := repr bare_world;
  describe := describe bare_world;
  recursion_limit := recursion_limit bare_world;
  json_dumps := json_dumps bare_world;
  json_loads := json_loads bare_world;
  yaml_safe_load := fun s => if String.eqb s "project: acme/infra" then inr home_config
                             else inl "<yaml error>";
  getenv := getenv bare_world;
  getcwd := getcwd bare_world;
  expanduser := expanduser bare_world;
  path_exists := fun p => String.eqb p "~/.cased/config.yml";
  read_file := fun p => if String.eqb p "~/.cased/config.yml" then inr "project: acme/infra"
                        else inl "<no such file>";
  listdir := listdir bare_world;
  terraform_show := terraform_show bare_world;
  http_post := http_post bare_world
|}.

(** A world whose every environment variable is set. *)
Definition env_world : World := {|
  repr := repr bare_world;
  describe := describe bare_world;
  recursion_limit := recursion_limit bare_world;
  json_dumps := json_dumps bare_world;
  json_loads := json_loads bare_world;
  yaml_safe_load := yaml_safe_load bare_world;
  getenv := fun _ => Some "from-env";
  getcwd := getcwd bare_world;
  expanduser := expanduser bare_world;
  path_exists := path_exists bare_world;
  read_file := read_file bare_world;
  listdir := listdir bare_world;
  terraform_show := terraform_show bare_world;
  http_post := http_post bare_world
|}.

Definition file_config : dict :=
  [("project", VStr "from-file"); ("environment", VStr "from-file");
   ("api_key", VStr "from-file"); ("api_url", VStr "from-file")].


(** Every flag given with an empty value, and [--api-url] with the default
    URL spelled out. *)
Definition empty_flags : flags := {|
  f_project := Some ""; f_environment := Some ""; f_api_key := Some "";
  f_api_url := Some default_api_url;
  f_working_dir := None; f_dry_run := false; f_config := None; f_local := false
|}.


(** The config file of the whole run below, and the world around it. *)
Definition scenario_config : value :=
  VDict [("project", VStr "acme/infra"); ("environment", VStr "staging")].

Definition scenario_world : World := {|
  repr := repr bare_world;
  describe := describe bare_world;
  recursion_limit := recursion_limit bare_world;
  json_dumps := fun v => if truthy v then "<json>" else "{}";
  json_loads := fun s => if String.eqb s "{}" then Some (VDict []) else None;
  yaml_safe_load := fun _ => inr scenario_config;
  getenv := fun _ => None;
  getcwd := "/work";
  expanduser := fun p => p;
  path_exists := fun p => String.eqb p ".cased.yml" || String.eqb p "/work/.terraform";
  read_file := fun _ => inr "<yaml>";
  listdir := fun _ => inr ["main.tf"];
  terraform_show := fun _ => inr (clean_exit "{}");
  http_post := fun _ _ _ => inl "<connection refused>"
|}.

Definition dry_run_flags : flags := {|
  f_project := None; f_environment := None; f_api_key := None; f_api_url := None;
  f_working_dir := None; f_dry_run := true; f_config := None; f_local := false
|}.

(** * Further specification

    Words for the properties of the last part of this file. *)

(** ** Kinds of events and of errors *)

(** An event that only writes to the terminal. *)
Definition printed (e : event) : Prop :=
  match e with
  | Echo _ | Secho _ _ _ => True
  | _ => False
  end.

(** The errors of reading a value of the wrong shape. *)
Definition data_error (e : exn) : Prop :=
  match e with
  | KeyError _ | TypeError | AttributeError => True
  | _ => False
  end.

(** Every exception the computation can end with satisfies [P]. *)
Definition raises_only {A} (P : exn -> Prop) (m : IO A) : Prop :=
  forall e, result m = Raised e -> P e.

(** The red line a handler of [analyze] prints for the error [e]. *)
Definition error_line (w : World) (e : exn) : event :=
  Secho (Str.nl ++ (if is_request_exception e then "Error calling Cased API: "
                    else "Unexpected error: ") ++ exn_str w e) red false.

(** An event that stays on the machine: anything but a request. *)
Definition local_event (e : event) : Prop :=
  match e with
  | Post _ _ _ => False
  | _ => True
  end.

(** What a run of the command does, in order: it prints; or it prints, runs
    [terraform show -json] once and prints; or, unless the run is dry, it
    prints, runs [terraform show -json] once, prints, sends one request and
    prints.  Nothing else is run and nothing else is sent. *)
Definition command_trace (dry_run : bool) (t : list event) : Prop :=
  Forall printed t
  \/ (exists before cwd after,
         t = (before ++ Run terraform_argv cwd :: after)%list
         /\ Forall printed before /\ Forall printed after)
  \/ (dry_run = false
      /\ exists before cwd between url body headers after,
           t = (before ++ Run terraform_argv cwd
                  :: between ++ Post url body headers :: after)%list
           /\ Forall printed before /\ Forall printed between /\ Forall printed after).


(** ** Records of a report *)

(** The fields the printer reads from a managed record, in the order it
    reads them, and from a record of the other two buckets. *)
Definition managed_order : list string :=
  ["status"; "service_name"; "name"; "id"; "service_type"].
Definition plain_keys : list string := ["service_name"; "name"; "id"; "service_type"].

(** The first key of [keys] that the object does not bind. *)
Definition first_unbound (d : dict) (keys : list string) : option string :=
  find (fun k => match lookup d k with Some _ => false | None => true end) keys.

(** What the printer emits for a record of the unmanaged or of the missing
    bucket. *)
Definition plain_block (w : World) (fg : color) (r : value) : list event :=
  [ name_event w r fg; Echo ("  Type: " ++ py_str w (item r "service_type")); Echo "" ].

(** A bucket under its heading; nothing for an empty bucket. *)
Definition section_of (heading : event) (block : value -> list event) (records : list value)
  : list event :=
  match records with
  | [] => []
  | _ => heading :: flat_map block records
  end.

(** A report with a record in each bucket. *)
Definition stray_record : value :=
  VDict [("service_name", VStr "ec2"); ("name", VStr "bastion"); ("id", VStr "i-9");
         ("service_type", VStr "compute")].

Definition lost_record : value :=
  VDict [("service_name", VStr "rds"); ("name", VStr "orders"); ("id", VStr "db-3");
         ("service_type", VStr "database")].

Definition full_report : value :=
  VDict [("managed_resources", VList [changed_record]);
         ("unmanaged_resources", VList [stray_record]);
         ("missing_resources", VList [lost_record])].

(** ** Resources of the state *)

(** [r.get(k, default)] where [r] is an object. *)
Definition got (r : value) (k : string) (default : value) : value :=
  match get_or r k default with
  | Returned v => v
  | Raised _ => default
  end.

(** A resource of the provider whose resources the summary lists. *)
Definition is_aws (r : value) : bool :=
  match got r "type" (VStr "") with
  | VStr s => Str.startswith s "aws_"
  | _ => false
  end.

(** The line of the summary for a resource. *)
Definition resource_event (w : World) (prefix : string) (r : value) : event :=
  Echo (prefix ++ "  - " ++ py_str w (got r "type" (VStr "")) ++ ": "
        ++ py_str w (got r "name" VNone)
        ++ " (" ++ py_str w (got (got r "values" (VDict [])) "id" (VStr "no id")) ++ ")").

Definition count_event (prefix : string) (n : nat) : event :=
  Echo (prefix ++ "- Found " ++ Str.of_nat n ++ " resources in module").

(** ** Flags and settings *)

(** An option given with an empty value, read as an option not given. *)
Definition drop_empty (o : option string) : option string :=
  match o with
  | Some "" => None
  | other => other
  end.

Definition without_empty_flags (f : flags) : flags :=
  {| f_project := drop_empty (f_project f);
     f_environment := drop_empty (f_environment f);
     f_api_key := drop_empty (f_api_key f);
     f_api_url := f_api_url f;
     f_working_dir := f_working_dir f;
     f_dry_run := f_dry_run f;
     f_config := f_config f;
     f_local := f_local f |}.

(** The working directory [analyze] hands to its analyzer: the flag, or
    the configured directory with its [~] expanded. *)
Definition directory_setting (w : World) (d : dict) (working_dir : option string)
  : outcome (option string) :=
  if truthy (of_option working_dir) then Returned working_dir
  else if truthy (config_value d "working_dir")
       then match expanduser_value w (config_value d "working_dir") with
            | Returned dir => Returned (Some dir)
            | Raised e => Raised e
            end
       else Returned working_dir.

(** The directory setting is one [analyze] can use. *)
Definition directory_usable (d : dict) (working_dir : option string) : Prop :=
  truthy (of_option working_dir) = true
  \/ truthy (config_value d "working_dir") = false
  \/ exists p, config_value d "working_dir" = VStr p.

Definition project_missing : exn :=
  UsageError "Project must be specified via --project or config file".

Definition environment_missing : exn :=
  UsageError "Environment must be specified via --environment or config file".

Definition key_missing : exn :=
  UsageError "--api-key is required unless using --dry-run".

(** A configuration with a directory and no flags but the project's. *)
Definition directory_config : dict :=
  [("environment", VStr "prod"); ("working_dir", VStr "~/infra")].

(** * Verification *)

(** ** Strings: sample runs *)

Example rstrip_ex : Str.rstrip "/" "http://x//" = "http://x".
Proof. reflexivity. Qed.
Example replace_ex : Str.replace "/api/v1" "" "http://x/api/v1/y/api/v1" = "http://x/y".
Proof. reflexivity. Qed.
Example replace_empty_ex : Str.replace "" "-" "abc" = "-a-b-c-".
Proof. reflexivity. Qed.
Example take_ex : Str.take_chars 2 "âœ… No" = "âœ".
Proof. reflexivity. Qed.
Example chars_ex : Str.chars "âœa" = ["â"; "œ"; "a"].
Proof. reflexivity. Qed.
Example len_ex : Str.len "âœ… No" = 6%nat.
Proof. reflexivity. Qed.
Example endswith_ex : Str.endswith "main.tf" ".tf" = true /\ Str.endswith "tf" ".tf" = false.
Proof. split; reflexivity. Qed.

(** ** Computations: traces and results *)

Section Laws.

Context {A B : Type}.

Lemma bind_returned (t : list event) (a : A) (k : A -> IO B) :
  bind (t, Returned a) k = ((t ++ trace (k a))%list, result (k a)).
Proof. unfold bind, trace, result. destruct (k a); reflexivity. Qed.

Lemma bind_raised (t : list event) (e : exn) (k : A -> IO B) :
  bind (t, Raised e) k = (t, Raised e).
Proof. reflexivity. Qed.

Lemma bind_lift_returned (a : A) (k : A -> IO B) :
  bind (lift (Returned a)) k = k a.
Proof. unfold lift. rewrite bind_returned. destruct (k a); reflexivity. Qed.

Lemma bind_lift_raised (e : exn) (k : A -> IO B) :
  bind (lift (Raised e)) k = ([], Raised e).
Proof. reflexivity. Qed.

Lemma bind_ret (a : A) (k : A -> IO B) : bind (ret a) k = k a.
Proof. apply bind_lift_returned. Qed.

(** The trace of a sequence starts with the trace of its first part. *)
Lemma trace_bind (m : IO A) (k : A -> IO B) :
  exists rest, trace (bind m k) = (trace m ++ rest)%list.
Proof.
  destruct m as [t [a | e]].
  - rewrite bind_returned. eexists; reflexivity.
  - exists []. simpl. now rewrite app_nil_r.
Qed.

(** Every event of a sequence is an event of its first part or of what
    follows it. *)
Lemma events_bind (P : event -> Prop) (m : IO A) (k : A -> IO B) :
  Forall P (trace m) -> (forall a, Forall P (trace (k a))) ->
  Forall P (trace (bind m k)).
Proof.
  intros Hm Hk. destruct m as [t [a | e]].
  - rewrite bind_returned. apply Forall_app; split; [exact Hm | apply Hk].
  - exact Hm.
Qed.

End Laws.

Lemma bind_emit {B} (e : event) (k : unit -> IO B) :
  bind (emit e) k = (e :: trace (k tt), result (k tt)).
Proof. unfold emit. now rewrite bind_returned. Qed.

Lemma events_lift {A} (P : event -> Prop) (r : outcome A) : Forall P (trace (lift r)).
Proof. constructor. Qed.

Lemma events_ret {A} (P : event -> Prop) (a : A) : Forall P (trace (ret a)).
Proof. constructor. Qed.

Lemma events_raise {A} (P : event -> Prop) (e : exn) : Forall P (trace (@raise A e)).
Proof. constructor. Qed.

Lemma events_emit (P : event -> Prop) (e : event) : P e -> Forall P (trace (emit e)).
Proof. intros H. constructor; [exact H | constructor]. Qed.

Lemma events_for_list {A} (P : event -> Prop) (items : list A) (body : A -> IO unit) :
  (forall x, Forall P (trace (body x))) -> Forall P (trace (for_list items body)).
Proof.
  intros Hbody. induction items as [| x rest IH]; simpl.
  - constructor.
  - apply events_bind; [apply Hbody | intros _; exact IH].
Qed.

Lemma events_for_each (P : event -> Prop) (v : value) (body : value -> IO unit) :
  (forall x, Forall P (trace (body x))) -> Forall P (trace (for_each v body)).
Proof.
  intros Hbody. destruct v; simpl; try constructor; now apply events_for_list.
Qed.

(** Runs the part of a computation that is known: values returned, events
    emitted. *)
Ltac run_io :=
  repeat first
    [ rewrite bind_lift_returned | rewrite bind_emit | rewrite bind_returned
    | progress cbn [trace result fst snd truthy negb] ].

(** A loop whose every turn returns emits the events of its turns in order. *)
Lemma for_list_returns {A} (items : list A) (body : A -> IO unit) (out : A -> list event) :
  (forall x, In x items -> body x = (out x, Returned tt)) ->
  for_list items body = (flat_map out items, Returned tt).
Proof.
  induction items as [| x rest IH]; intros Hbody; simpl.
  - reflexivity.
  - rewrite (Hbody x) by now left. rewrite bind_returned.
    rewrite IH by (intros y Hy; apply Hbody; now right). reflexivity.
Qed.

Create HintDb events.
#[local] Hint Resolve events_lift events_ret events_raise events_emit : events.

(** ** The dry run *)

Lemma analyze_terraform_dry_run (w : World) (self : CasedAPI)
      (project environment show_output : value) :
  analyze_terraform w self project environment show_output true
  = (dry_run_output w (base_url self) project environment show_output, Returned (VDict [])).
Proof. reflexivity. Qed.

(** A report that is falsy (the empty object of a dry run, [None], an empty
    list) prints nothing. *)
Lemma print_drift_report_falsy (w : World) (report : value) :
  truthy report = false -> print_drift_report w report = ([], Returned tt).
Proof. intros H. unfold print_drift_report. now rewrite H. Qed.

(** C4. With [dry_run] set, [analyze_terraform] emits no [Post] event,
    whatever the client, the project, the environment and the state document
    are: it only prints, and returns the empty object.  [print_drift_report]
    on the empty object emits nothing and returns. *)
Theorem dry_run_never_posts (w : World) (self : CasedAPI)
        (project environment show_output : value) :
  let run := analyze_terraform w self project environment show_output true in
  existsb is_post (trace run) = false
  /\ (forall url body headers, ~ In (Post url body headers) (trace run))
  /\ result run = Returned (VDict [])
  /\ print_drift_report w (VDict []) = ([], Returned tt).
Proof.
  cbv zeta. rewrite analyze_terraform_dry_run. unfold trace, result; simpl fst; simpl snd.
  repeat split.
  intros url body headers Hin. unfold dry_run_output in Hin. simpl in Hin.
  repeat (destruct Hin as [Hin | Hin]; [discriminate Hin |]). exact Hin.
Qed.


(** C9. In a dry run, two clients that differ only in their API key (the
    placeholder [dry-run-key] included) print the same text and return the
    same result: the output is a function of the base URL, the project, the
    environment and the state document alone.  The only Authorization line
    in it is the redacted one. *)
Theorem dry_run_independent_of_key (w : World) (key1 key2 : value) (url : string)
        (project environment show_output : value) :
  let client key := {| api_key := key; base_url := url |} in
  analyze_terraform w (client key1) project environment show_output true
  = analyze_terraform w (client key2) project environment show_output true
  /\ analyze_terraform w (client key1) project environment show_output true
     = analyze_terraform w (client (py_or VNone (VStr "dry-run-key")))
                         project environment show_output true
  /\ trace (analyze_terraform w (client key1) project environment show_output true)
     = dry_run_output w url project environment show_output
  /\ In (Echo "  Authorization: Bearer [REDACTED]")
        (dry_run_output w url project environment show_output).
Proof.
  cbv zeta. rewrite !analyze_terraform_dry_run. simpl base_url.
  repeat split. unfold dry_run_output. simpl. auto.
Qed.

(** ** The report printer *)

Lemma lookup_dict_set_same (d : dict) (k : string) (v : value) :
  lookup d k = None -> lookup (dict_set d k v) k = Some v.
Proof.
  induction d as [| [k' v'] rest IH]; simpl; intros H.
  - now rewrite String.eqb_refl.
  - destruct (String.eqb k' k) eqn:E; [discriminate |]. simpl. rewrite E. now apply IH.
Qed.

Lemma lookup_dict_set_other (d : dict) (k k' : string) (v : value) :
  k <> k' -> lookup (dict_set d k v) k' = lookup d k'.
Proof.
  intros Hne. induction d as [| [k0 v0] rest IH]; simpl.
  - destruct (String.eqb_spec k k'); [contradiction | reflexivity].
  - destruct (String.eqb_spec k0 k) as [-> | Hk0]; simpl.
    + destruct (String.eqb_spec k k'); [contradiction | reflexivity].
    + now rewrite IH.
Qed.

Lemma truthy_dict_set (d : dict) (k : string) (v : value) :
  d <> [] -> truthy (VDict (dict_set d k v)) = truthy (VDict d).
Proof.
  destruct d as [| [k' v'] rest]; [congruence |]. intros _. simpl.
  now destruct (String.eqb k' k).
Qed.

(** An absent bucket reads as the empty list. *)
Lemma bucket_absent (d : dict) (k : string) :
  lookup d k = None -> bucket (VDict d) k = Returned (VList []).
Proof. intros H. unfold bucket, get_or. now rewrite H. Qed.

Lemma bucket_present (d : dict) (k : string) (v : value) :
  lookup d k = Some v -> bucket (VDict d) k = Returned v.
Proof. intros H. unfold bucket, get_or. now rewrite H. Qed.

(** The printer reads a report through its truth value and its buckets only. *)
Lemma print_drift_report_ext (w : World) (r1 r2 : value) :
  truthy r1 = truthy r2 ->
  (forall k, In k bucket_keys -> bucket r1 k = bucket r2 k) ->
  print_drift_report w r1 = print_drift_report w r2.
Proof.
  intros Ht Hb. unfold print_drift_report. rewrite Ht.
  rewrite !(Hb "managed_resources"), !(Hb "unmanaged_resources"), !(Hb "missing_resources")
    by (unfold bucket_keys; simpl; auto).
  reflexivity.
Qed.

Lemma plain_resource_line w resource fg : Forall plain (trace (resource_line w resource fg)).
Proof.
  unfold resource_line. repeat (apply events_bind; [auto with events | intros]).
  apply events_emit. reflexivity.
Qed.

Lemma plain_type_line w resource : Forall plain (trace (type_line w resource)).
Proof.
  unfold type_line. apply events_bind; [auto with events | intros].
  apply events_emit. exact I.
Qed.

Lemma plain_change_line w change : Forall plain (trace (change_line w change)).
Proof.
  unfold change_line. repeat (apply events_bind; [auto with events | intros]).
  apply events_emit. exact I.
Qed.

Lemma plain_print_plain w fg resource : Forall plain (trace (print_plain w fg resource)).
Proof.
  unfold print_plain.
  apply events_bind; [apply plain_resource_line | intros].
  apply events_bind; [apply plain_type_line | intros].
  apply events_emit. exact I.
Qed.

Lemma plain_print_managed w resource : Forall plain (trace (print_managed w resource)).
Proof.
  unfold print_managed.
  apply events_bind; [auto with events | intros status].
  apply events_bind; [apply plain_resource_line | intros].
  apply events_bind; [apply plain_type_line | intros].
  apply events_bind; [auto with events | intros].
  apply events_bind; [apply events_emit; exact I | intros].
  apply events_bind; [auto with events | intros drift].
  apply events_bind; [| intros; apply events_emit; exact I].
  destruct (truthy drift); [| auto with events].
  apply events_bind; [apply events_emit; reflexivity | intros].
  apply events_bind; [auto with events | intros].
  apply events_for_each. apply plain_change_line.
Qed.

Lemma plain_not_heading (key : string) (e : event) : plain e -> e <> section_heading key.
Proof.
  intros Hp ->. unfold section_heading in Hp.
  destruct (String.eqb key "managed_resources"); [discriminate Hp |].
  destruct (String.eqb key "unmanaged_resources"); discriminate Hp.
Qed.

Lemma plain_other_than (h : event) (t : list event) :
  (forall e, plain e -> e <> h) -> Forall plain t -> Forall (fun e => e <> h) t.
Proof. intros Hh Ht. eapply Forall_impl; [| exact Ht]. exact Hh. Qed.

(** Splits a goal on the events of a computation along its sequence. *)
Ltac split_events :=
  repeat first
    [ rewrite bind_lift_returned | progress cbn [truthy negb]
    | apply events_lift | apply events_ret | apply events_raise
    | apply events_bind; [| intros]
    | match goal with
      | |- context [if ?b then _ else _] => destruct b
      end ].

(** A bucket that is absent puts no heading of its own in the output. *)
Lemma absent_bucket_no_heading (w : World) (d : dict) (key : string) :
  In key bucket_keys -> lookup d key = None ->
  ~ In (section_heading key) (trace (print_drift_report w (VDict d))).
Proof.
  intros Hkey Hnone Hin.
  assert (Forall (fun e => e <> section_heading key)
                 (trace (print_drift_report w (VDict d)))) as Hall.
  { unfold print_drift_report.
    destruct (negb (truthy (VDict d))); [constructor |].
    assert (forall v, Forall (fun e => e <> section_heading key)
                             (trace (for_each v (print_managed w)))) as Hm
        by (intros; apply plain_other_than;
            [apply plain_not_heading | apply events_for_each, plain_print_managed]).
    assert (forall v fg, Forall (fun e => e <> section_heading key)
                                (trace (for_each v (print_plain w fg)))) as Hp
        by (intros; apply plain_other_than;
            [apply plain_not_heading | apply events_for_each, plain_print_plain]).
    unfold bucket_keys in Hkey. simpl in Hkey.
    destruct Hkey as [<- | [<- | [<- | []]]];
      rewrite !(bucket_absent d _ Hnone); split_events;
      try apply Hm; try apply Hp;
      try (apply events_emit; unfold section_heading; simpl; discriminate);
      try discriminate; try constructor. }
  rewrite Forall_forall in Hall. exact (Hall _ Hin eq_refl).
Qed.

Lemma print_no_resources (w : World) (report : value) :
  truthy report = true ->
  (forall k, In k bucket_keys -> bucket report k = Returned (VList [])) ->
  print_drift_report w report = ([Echo report_heading; success_line], Returned tt).
Proof.
  intros Ht Hb. unfold print_drift_report. rewrite Ht.
  rewrite !(Hb "managed_resources"), !(Hb "unmanaged_resources"), !(Hb "missing_resources")
    by (unfold bucket_keys; simpl; auto).
  reflexivity.
Qed.

(** C2, as it is stated, fails: for the report whose three buckets are
    present and empty the printer emits two lines, the heading of the report
    and then the success line. *)
Lemma empty_buckets_print_two_lines :
  (forall k, In k bucket_keys -> subscript empty_buckets_report k = Returned (VList []))
  /\ (forall w, trace (print_drift_report w empty_buckets_report)
                = [Echo report_heading; success_line])
  /\ [Echo report_heading; success_line] <> [success_line].
Proof.
  split; [| split].
  - intros k Hk. unfold bucket_keys in Hk. simpl in Hk.
    destruct Hk as [<- | [<- | [<- | []]]]; reflexivity.
  - intros w. reflexivity.
  - discriminate.
Qed.

(** C2, amended.  For a report whose three buckets are all present and all
    empty lists, the printer emits the heading of the report, then the
    success line, and nothing else, and returns. *)
Theorem empty_buckets_print_heading_and_success (w : World) (report : value) :
  (forall k, In k bucket_keys -> subscript report k = Returned (VList [])) ->
  print_drift_report w report = ([Echo report_heading; success_line], Returned tt).
Proof.
  intros H.
  assert (subscript report "managed_resources" = Returned (VList [])) as Hm
      by (apply H; unfold bucket_keys; simpl; auto).
  destruct report as [| | | | | d]; try discriminate Hm.
  apply print_no_resources.
  - destruct d; [discriminate Hm | reflexivity].
  - intros k Hk. specialize (H k Hk). unfold subscript in H. unfold bucket, get_or.
    destruct (lookup d k); [now inversion H | discriminate H].
Qed.

Lemma empty_buckets_witness :
  print_drift_report bare_world empty_buckets_report
  = ([Echo report_heading; success_line], Returned tt).
Proof.
  apply (empty_buckets_print_heading_and_success bare_world empty_buckets_report).
  intros k Hk. unfold bucket_keys in Hk. simpl in Hk.
  destruct Hk as [<- | [<- | [<- | []]]]; reflexivity.
Defined.

(** C10.  In a report object that is not empty, a bucket key that is absent
    reads as the empty list: the printer does exactly what it does on the
    report with that key bound to [[]], no heading of that bucket is among
    its events, and when none of the three keys is there it emits the
    heading of the report and the success line and returns. *)
Theorem absent_bucket_reads_as_empty (w : World) (d : dict) (key : string) :
  d <> [] -> In key bucket_keys -> lookup d key = None ->
  print_drift_report w (VDict d)
  = print_drift_report w (VDict (dict_set d key (VList [])))
  /\ ~ In (section_heading key) (trace (print_drift_report w (VDict d)))
  /\ ((forall k, In k bucket_keys -> lookup d k = None) ->
      print_drift_report w (VDict d) = ([Echo report_heading; success_line], Returned tt)).
Proof.
  intros Hd Hkey Hnone. split; [| split].
  - apply print_drift_report_ext.
    + symmetry. now apply truthy_dict_set.
    + intros k Hk. destruct (String.eqb_spec key k) as [<- | Hne].
      * rewrite (bucket_absent d key Hnone).
        symmetry. apply bucket_present. now apply lookup_dict_set_same.
      * unfold bucket, get_or. now rewrite lookup_dict_set_other.
  - now apply absent_bucket_no_heading.
  - intros Hall. apply print_no_resources.
    + destruct d; [congruence | reflexivity].
    + intros k Hk. apply bucket_absent. now apply Hall.
Qed.

Lemma absent_bucket_witness :
  let d := [("request_id", VStr "r-1")] in
  print_drift_report bare_world (VDict d)
  = print_drift_report bare_world (VDict (dict_set d "missing_resources" (VList [])))
  /\ ~ In (section_heading "missing_resources") (trace (print_drift_report bare_world (VDict d)))
  /\ ((forall k, In k bucket_keys -> lookup d k = None) ->
      print_drift_report bare_world (VDict d)
      = ([Echo report_heading; success_line], Returned tt)).
Proof.
  apply (absent_bucket_reads_as_empty bare_world [("request_id", VStr "r-1")]
                                      "missing_resources").
  - discriminate.
  - unfold bucket_keys. simpl. auto.
  - reflexivity.
Defined.

(** ** Managed resources and their changes *)

Lemma subscript_item (r : value) (keys : list string) (k : string) :
  has_keys r keys -> In k keys -> subscript r k = Returned (item r k).
Proof.
  intros H Hk. destruct (H k Hk) as [v Hv]. unfold item. now rewrite Hv.
Qed.

(** A value that [get] found and that is not [None] is bound in the object. *)
Lemma get_subscript (r : value) (k : string) (v : value) :
  get r k = Returned v -> v <> VNone -> subscript r k = Returned v.
Proof.
  unfold get, get_or, subscript. destruct r; try discriminate.
  destruct (lookup entries k); intros H Hv; inversion H; subst; congruence.
Qed.

Lemma flat_map_singleton {A B} (f : A -> B) (l : list A) :
  flat_map (fun x => [f x]) l = map f l.
Proof. induction l; simpl; congruence. Qed.

Lemma change_line_returns (w : World) (c : value) :
  has_keys c change_keys -> change_line w c = ([change_event w c], Returned tt).
Proof.
  intros H. unfold change_line.
  rewrite !(subscript_item c change_keys) by (auto; unfold change_keys; simpl; auto).
  rewrite !bind_lift_returned. reflexivity.
Qed.

Lemma resource_line_returns (w : World) (r : value) (fg : color) :
  has_keys r record_keys -> resource_line w r fg = ([name_event w r fg], Returned tt).
Proof.
  intros H. unfold resource_line.
  rewrite !(subscript_item r record_keys) by (auto; unfold record_keys; simpl; auto).
  rewrite !bind_lift_returned. reflexivity.
Qed.

Lemma type_line_returns (w : World) (r : value) :
  has_keys r record_keys ->
  type_line w r = ([Echo ("  Type: " ++ py_str w (item r "service_type"))], Returned tt).
Proof.
  intros H. unfold type_line.
  rewrite !(subscript_item r record_keys) by (auto; unfold record_keys; simpl; auto 6).
  rewrite !bind_lift_returned. reflexivity.
Qed.

(** The loop body on a well-formed record emits its block and returns. *)
Lemma print_managed_returns (w : World) (r : value) :
  well_formed r -> print_managed w r = (managed_block w r, Returned tt).
Proof.
  intros (Hkeys & Hdrift & Hentries). unfold print_managed.
  rewrite !(subscript_item r record_keys "status") by (auto; unfold record_keys; simpl; auto 6).
  rewrite bind_lift_returned.
  rewrite resource_line_returns, type_line_returns by assumption.
  unfold managed_block, changes_block. unfold drift_entries in *.
  destruct Hdrift as [Hd | [entries Hd]]; rewrite Hd in *.
  - reflexivity.
  - destruct entries as [| c cs]; [reflexivity |].
    rewrite (get_subscript r "drift" _ Hd) by discriminate.
    assert (for_each (VList (c :: cs)) (change_line w)
            = (map (change_event w) (c :: cs), Returned tt)) as Hloop.
    { cbn [for_each].
      rewrite (for_list_returns (c :: cs) (change_line w) (fun x => [change_event w x])).
      - now rewrite flat_map_singleton.
      - intros x Hx. apply change_line_returns.
        rewrite Forall_forall in Hentries. now apply Hentries. }
    run_io. rewrite Hloop. reflexivity.
Qed.

Lemma changes_line_not_name (w : World) (r : value) (fg : color) :
  changes_line <> name_event w r fg.
Proof. unfold changes_line, name_event, bullet. simpl. discriminate. Qed.

Lemma changes_line_in_block (w : World) (r : value) :
  In changes_line (managed_block w r) <-> drift_entries r <> [].
Proof.
  unfold managed_block, changes_block. split.
  - intros Hin Hnil. rewrite Hnil in Hin. simpl in Hin.
    destruct Hin as [H | [H | [H | [H | []]]]]; try discriminate H;
      symmetry in H; exact (changes_line_not_name _ _ _ H).
  - intros Hne. destruct (drift_entries r) as [| c cs]; [congruence |].
    apply in_or_app. right. apply in_or_app. left. now left.
Qed.

(** The managed section of a report whose buckets are lists. *)
Lemma managed_section (w : World) (report : value) (rs us ms : list value) :
  bucket report "managed_resources" = Returned (VList rs) ->
  bucket report "unmanaged_resources" = Returned (VList us) ->
  bucket report "missing_resources" = Returned (VList ms) ->
  rs <> [] -> Forall well_formed rs ->
  exists rest,
    trace (print_drift_report w report)
    = Echo report_heading :: managed_heading :: (flat_map (managed_block w) rs ++ rest)%list.
Proof.
  intros Hm Hu Hmi Hne Hwf.
  assert (truthy report = true) as Ht.
  { unfold bucket, get_or in Hm. destruct report as [| | | | | d]; try discriminate Hm.
    destruct d; [| reflexivity]. simpl in Hm. inversion Hm. congruence. }
  unfold print_drift_report. rewrite Ht, Hm, Hu, Hmi. cbn [negb].
  destruct rs as [| r rs']; [congruence |].
  assert (for_each (VList (r :: rs')) (print_managed w)
          = (flat_map (managed_block w) (r :: rs'), Returned tt)) as Hloop.
  { cbn [for_each]. apply for_list_returns. intros x Hx.
    apply print_managed_returns. rewrite Forall_forall in Hwf. now apply Hwf. }
  cbn [add app]. run_io. rewrite Hloop. run_io.
  eexists. reflexivity.
Qed.

(** C3, as it is stated, fails: a managed record whose status is "drifted"
    and whose drift list is empty gets its name line in the warning colour,
    its type and its status, and no "Changes:" line. *)
Lemma drifted_without_entries_no_changes :
  eq_str (item drifted_record "status") "synced" = false
  /\ (forall w, trace (print_drift_report w drifted_report)
                = [ Echo report_heading; managed_heading;
                    Secho (bullet ++ " s3 - logs (b-1)") yellow false;
                    Echo "  Type: storage"; Echo "  Status: drifted"; Echo "" ])
  /\ (forall w, ~ In changes_line (trace (print_drift_report w drifted_report))).
Proof.
  split; [reflexivity | split].
  - intros w. reflexivity.
  - intros w Hin. cbv in Hin.
    repeat (destruct Hin as [Hin | Hin]; [discriminate Hin |]). exact Hin.
Qed.

(** C3, amended.  In a report whose buckets are lists and whose managed
    records are well formed, the managed section is, record by record, the
    name line (service name, name and id, once), the type, the status, the
    "Changes:" block and an empty line.  The block is there if and only if
    the record has drift entries, whatever its status; it then lists every
    entry as field, expected and actual.  A record with status "synced" and
    no drift entries gives its name line in green, its type and its status,
    and no "Changes:" line. *)
Theorem changes_block_iff_drift_entries (w : World) (report : value) (rs us ms : list value) :
  bucket report "managed_resources" = Returned (VList rs) ->
  bucket report "unmanaged_resources" = Returned (VList us) ->
  bucket report "missing_resources" = Returned (VList ms) ->
  rs <> [] -> Forall well_formed rs ->
  (exists rest,
      trace (print_drift_report w report)
      = Echo report_heading :: managed_heading :: (flat_map (managed_block w) rs ++ rest)%list)
  /\ forall r, In r rs ->
       (In changes_line (managed_block w r) <-> drift_entries r <> [])
       /\ (drift_entries r <> [] ->
           exists before,
             managed_block w r
             = (before ++ changes_line :: map (change_event w) (drift_entries r)
                       ++ [Echo ""])%list)
       /\ (item r "status" = VStr "synced" -> drift_entries r = [] ->
           managed_block w r
           = [ name_event w r green;
               Echo ("  Type: " ++ py_str w (item r "service_type"));
               Echo "  Status: synced"; Echo "" ]).
Proof.
  intros Hm Hu Hmi Hne Hwf. split; [now apply (managed_section w report rs us ms) |].
  intros r Hr. split; [apply changes_line_in_block | split].
  - intros Hd. unfold managed_block, changes_block.
    destruct (drift_entries r) as [| c cs]; [congruence |].
    eexists. reflexivity.
  - intros Hs Hd. unfold managed_block, changes_block. rewrite Hs, Hd. reflexivity.
Qed.

(** Settles [has_keys] on a concrete object. *)
Ltac keys_present :=
  let k := fresh "k" in
  let Hk := fresh "Hk" in
  intros k Hk; simpl in Hk;
  repeat (destruct Hk as [<- | Hk]; [eexists; reflexivity |]);
  contradiction.

Lemma sample_records_well_formed : Forall well_formed [synced_record; changed_record].
Proof.
  apply Forall_cons; [| apply Forall_cons; [| apply Forall_nil]].
  - split; [keys_present | split; [now left | apply Forall_nil]].
  - split; [keys_present | split].
    + right. eexists. reflexivity.
    + apply Forall_cons; [keys_present | apply Forall_nil].
Qed.

Lemma changes_block_witness :
  (exists rest,
      trace (print_drift_report bare_world sample_report)
      = Echo report_heading :: managed_heading
        :: (flat_map (managed_block bare_world) [synced_record; changed_record] ++ rest)%list)
  /\ forall r, In r [synced_record; changed_record] ->
       (In changes_line (managed_block bare_world r) <-> drift_entries r <> [])
       /\ (drift_entries r <> [] ->
           exists before,
             managed_block bare_world r
             = (before ++ changes_line :: map (change_event bare_world) (drift_entries r)
                       ++ [Echo ""])%list)
       /\ (item r "status" = VStr "synced" -> drift_entries r = [] ->
           managed_block bare_world r
           = [ name_event bare_world r green;
               Echo ("  Type: " ++ py_str bare_world (item r "service_type"));
               Echo "  Status: synced"; Echo "" ]).
Proof.
  apply (changes_block_iff_drift_entries bare_world sample_report
           [synced_record; changed_record] [] []).
  - reflexivity.
  - reflexivity.
  - reflexivity.
  - discriminate.
  - exact sample_records_well_formed.
Defined.

Example sample_report_output :
  print_drift_report bare_world sample_report
  = ([ Echo report_heading; managed_heading;
       Secho (bullet ++ " s3 - assets (b-2)") green false;
       Echo "  Type: storage"; Echo "  Status: synced"; Echo "";
       Secho (bullet ++ " s3 - logs (b-1)") yellow false;
       Echo "  Type: storage"; Echo "  Status: drifted";
       changes_line; Echo "    - acl: expected private, got public-read"; Echo "" ],
     Returned tt).
Proof. reflexivity. Qed.

(** ** Strings: what [rstrip], [replace] and [endswith] compute *)




Lemma prefix_app (p s : string) : String.prefix p (p ++ s) = true.
Proof.
  induction p as [| c p IH]; simpl.
  - now destruct s.
  - destruct (ascii_dec c c); [exact IH | congruence].
Qed.



Lemma replace_keep (c d : ascii) (old' new rest : string) :
  String.prefix (String c old') (String d rest) = false ->
  Str.replace (String c old') new (String d rest)
  = String d (Str.replace (String c old') new rest).
Proof.
  intros H. unfold Str.replace. cbn [Str.replace_from]. now rewrite H.
Qed.


(** A string without [old] in it is left as it is. *)
Lemma replace_absent (old new s : string) :
  old <> "" -> Str.contains old s = false -> Str.replace old new s = s.
Proof.
  intros Hold. destruct old as [| c old']; [congruence |].
  induction s as [| d rest IH]; intros H.
  - reflexivity.
  - cbn [Str.contains] in H. apply orb_false_iff in H as [Hp Hrest].
    rewrite (replace_keep _ _ _ _ _ Hp). now rewrite IH.
Qed.

Lemma drop_app (a s : string) : Str.drop (String.length a) (a ++ s) = s.
Proof. induction a as [| c a IH]; simpl; [now destruct s | exact IH]. Qed.

Lemma drop_split (n : nat) (s : string) : exists pre, s = pre ++ Str.drop n s.
Proof.
  revert s. induction n as [| n IH]; intros s.
  - exists "". now destruct s.
  - destruct s as [| c s]; simpl.
    + now exists "".
    + destruct (IH s) as [pre Hpre]. exists (String c pre). simpl. now rewrite <- Hpre.
Qed.

Lemma length_app (a b : string) :
  String.length (a ++ b) = (String.length a + String.length b)%nat.
Proof. induction a as [| c a IH]; simpl; [reflexivity | now rewrite IH]. Qed.

(** [s.endswith(p)] holds exactly when [s] is some string followed by [p]. *)
Lemma endswith_spec (s p : string) :
  Str.endswith s p = true <-> exists pre, s = pre ++ p.
Proof.
  unfold Str.endswith. split.
  - intros H. apply andb_true_iff in H as [_ H]. apply String.eqb_eq in H.
    destruct (drop_split (String.length s - String.length p) s) as [pre Hpre].
    exists pre. now rewrite H in Hpre.
  - intros [pre ->]. rewrite length_app. apply andb_true_iff. split.
    + apply Nat.leb_le. lia.
    + replace (String.length pre + String.length p - String.length p)%nat
        with (String.length pre) by lia.
      rewrite drop_app. apply String.eqb_refl.
Qed.

(** ** The endpoint *)


(** Where the base URL is one the specification has in mind, the two
    agree. *)
Example segment_stripped_agrees :
  (exists api, CasedAPI_init (VStr "k") (VStr "https://cased.example/api/v1/") = Returned api
     /\ base_url api = segment_stripped "https://cased.example/api/v1/")
  /\ (exists api, CasedAPI_init (VStr "k") (VStr "https://app.cased.com") = Returned api
        /\ base_url api = segment_stripped "https://app.cased.com").
Proof. split; eexists; (split; [reflexivity | vm_compute; reflexivity]). Qed.


Example endpoint_default :
  exists api, CasedAPI_init (VStr "k") (VStr "https://app.cased.com") = Returned api
    /\ endpoint bare_world api (VStr "acme/infra")
       = "https://app.cased.com/api/v1/projects/acme/infra/infra/local".
Proof. eexists. split; [reflexivity | vm_compute; reflexivity]. Qed.

Example endpoint_versioned :
  exists api, CasedAPI_init (VStr "k") (VStr "https://cased.example/api/v1/") = Returned api
    /\ endpoint bare_world api (VStr "acme/infra")
       = "https://cased.example/api/v1/projects/acme/infra/infra/local".
Proof. eexists. split; [reflexivity | vm_compute; reflexivity]. Qed.

(** A base URL that is not a string cannot be stripped. *)
Lemma CasedAPI_init_not_str (key url : value) :
  (forall s, url <> VStr s) -> CasedAPI_init key url = Raised AttributeError.
Proof. intros H. destruct url; try reflexivity. now destruct (H s). Qed.

(** ** The working directory *)

Lemma tf_files_empty (names : list string) :
  tf_files names = [] <-> forall n, In n names -> Str.endswith n ".tf" = false.
Proof.
  unfold tf_files. induction names as [| n rest IH]; simpl.
  - split; [intros _ ? [] | reflexivity].
  - destruct (Str.endswith n ".tf") eqn:E.
    + split; [discriminate |]. intros H. specialize (H n (or_introl eq_refl)). congruence.
    + rewrite IH. split.
      * intros H x [<- | Hx]; [exact E | now apply H].
      * intros H x Hx. apply H. now right.
Qed.

(** C8.  In a directory that can be listed: when no entry has a name that
    ends in [.tf], validation raises a usage error, whatever else the
    directory and the world hold; when some entry does and there is no
    [.terraform] entry, it raises the usage error that names
    [terraform init].  Nothing is printed or run in either case. *)
Theorem validate_rejects_unprepared_directory (w : World) (self : TerraformAnalyzer)
        (names : list string) :
  listdir w (working_dir self) = inr names ->
  ((forall n, In n names -> ~ exists stem, n = stem ++ ".tf") ->
   exists message, validate_terraform_directory w self = ([], Raised (UsageError message)))
  /\ ((exists n stem, In n names /\ n = stem ++ ".tf") ->
      path_exists w (path_join (working_dir self) ".terraform") = false ->
      validate_terraform_directory w self = ([], Raised (UsageError not_initialized))
      /\ Str.contains "terraform init" not_initialized = true).
Proof.
  intros Hls. unfold validate_terraform_directory. rewrite Hls, bind_lift_returned. split.
  - intros Hnone.
    assert (tf_files names = []) as ->.
    { apply tf_files_empty. intros n Hn.
      destruct (Str.endswith n ".tf") eqn:E; [| reflexivity].
      apply endswith_spec in E. now destruct (Hnone n Hn). }
    eexists. reflexivity.
  - intros (n & stem & Hn & Hstem) Hmeta.
    destruct (tf_files names) as [| f fs] eqn:E.
    + rewrite tf_files_empty in E. specialize (E n Hn).
      assert (Str.endswith n ".tf" = true) by (apply endswith_spec; now exists stem).
      congruence.
    + rewrite Hmeta. split; reflexivity.
Qed.

Lemma validate_witness :
  validate_terraform_directory uninitialized_world {| working_dir := "/work" |}
  = ([], Raised (UsageError not_initialized))
  /\ Str.contains "terraform init" not_initialized = true.
Proof.
  destruct (validate_rejects_unprepared_directory
              uninitialized_world {| working_dir := "/work" |} ["README.md"; "main.tf"]
              eq_refl) as [_ H].
  apply H.
  - exists "main.tf", "main". split; [right; left; reflexivity | reflexivity].
  - reflexivity.
Defined.

Lemma validate_passes (w : World) (self : TerraformAnalyzer) (names : list string) :
  listdir w (working_dir self) = inr names ->
  tf_files names <> [] ->
  path_exists w (path_join (working_dir self) ".terraform") = true ->
  validate_terraform_directory w self = ret tt.
Proof.
  intros Hls Htf Hmeta. unfold validate_terraform_directory.
  rewrite Hls, bind_lift_returned.
  destruct (tf_files names); [congruence |]. now rewrite Hmeta.
Qed.

(** ** The state collector *)

Lemma result_bind {A B} (m : IO A) (k : A -> IO B) (a : A) :
  result m = Returned a -> result (bind m k) = result (k a).
Proof.
  destruct m as [t r]. unfold result at 1. cbn [snd]. intros ->.
  now rewrite bind_returned.
Qed.

Lemma result_bind_raised {A B} (m : IO A) (k : A -> IO B) (e : exn) :
  result m = Raised e -> result (bind m k) = Raised e.
Proof. destruct m as [t r]. unfold result at 1. cbn [snd]. now intros ->. Qed.

Lemma no_usage_bind {A B} (m : IO A) (k : A -> IO B) :
  no_usage m -> (forall a, no_usage (k a)) -> no_usage (bind m k).
Proof.
  intros Hm Hk message. destruct (result m) as [a | e] eqn:E.
  - rewrite (result_bind m k a E). apply Hk.
  - rewrite (result_bind_raised m k e E). intros H. apply (Hm message). congruence.
Qed.

Lemma no_usage_ret {A} (a : A) : no_usage (ret a).
Proof. intros message. discriminate. Qed.

Lemma no_usage_emit (e : event) : no_usage (emit e).
Proof. intros message. discriminate. Qed.

Lemma no_usage_for_list {A} (items : list A) (body : A -> IO unit) :
  (forall x, no_usage (body x)) -> no_usage (for_list items body).
Proof.
  intros Hbody. induction items as [| x rest IH]; simpl.
  - apply no_usage_ret.
  - apply no_usage_bind; [apply Hbody | intros _; exact IH].
Qed.

Lemma no_usage_for_each (v : value) (body : value -> IO unit) :
  (forall x, no_usage (body x)) -> no_usage (for_each v body).
Proof.
  intros Hbody. destruct v; simpl; try (intros message; discriminate);
    now apply no_usage_for_list.
Qed.

(** The operations on values raise type, attribute and key errors only. *)
Lemma no_usage_subscript (v : value) (k : string) : no_usage (lift (subscript v k)).
Proof.
  intros message. destruct v; simpl; try discriminate.
  destruct (lookup entries k); discriminate.
Qed.

Lemma no_usage_get_or (v : value) (k : string) (default : value) :
  no_usage (lift (get_or v k default)).
Proof. intros message. destruct v; simpl; discriminate. Qed.

Lemma no_usage_len (v : value) : no_usage (lift (len v)).
Proof. intros message. destruct v; simpl; discriminate. Qed.

Lemma no_usage_contains (k : string) (v : value) : no_usage (lift (contains k v)).
Proof. intros message. destruct v; simpl; discriminate. Qed.

Lemma no_usage_startswith (v : value) (p : string) : no_usage (lift (startswith v p)).
Proof. intros message. destruct v; simpl; discriminate. Qed.

(** Splits a goal [no_usage] along the sequence of the computation. *)
Ltac split_no_usage :=
  repeat first
    [ apply no_usage_ret | apply no_usage_emit
    | apply no_usage_subscript | apply no_usage_get_or | apply no_usage_len
    | apply no_usage_contains | apply no_usage_startswith
    | apply no_usage_for_each; intros
    | apply no_usage_bind; [| intros]
    | match goal with
      | |- no_usage (if ?b then _ else _) => destruct b
      end ].

(** The summary of the modules raises no usage error, at any depth. *)
Lemma no_usage_print_module_resources (w : World) (depth : nat) :
  forall module_data prefix, no_usage (print_module_resources w depth module_data prefix).
Proof.
  induction depth as [| depth IH]; intros module_data prefix.
  - intros message. discriminate.
  - cbn [print_module_resources]. unfold get, echo. split_no_usage. apply IH.
Qed.

Lemma result_for_list {A} (items : list A) (body : A -> IO unit) :
  (forall x, In x items -> result (body x) = Returned tt) ->
  result (for_list items body) = Returned tt.
Proof.
  induction items as [| x rest IH]; intros Hbody; simpl.
  - reflexivity.
  - rewrite (result_bind _ _ tt) by (apply Hbody; now left).
    apply IH. intros y Hy. apply Hbody. now right.
Qed.

Lemma subscript_of_contains (v : value) (k : string) (x : value) :
  subscript v k = Returned x -> contains k v = Returned true.
Proof.
  unfold subscript, contains. destruct v; try discriminate.
  now destruct (lookup entries k).
Qed.

(** The line of one resource is printed without error. *)
Lemma resource_summary_returns (w : World) (prefix : string) (r : value) :
  resource_ok r ->
  result (type <- lift (get_or r "type" (VStr "")) ;;
          aws <- lift (startswith type "aws_") ;;
          if aws : bool then
            type <- lift (subscript r "type") ;;
            name <- lift (get r "name") ;;
            values <- lift (get_or r "values" (VDict [])) ;;
            id <- lift (get_or values "id" (VStr "no id")) ;;
            echo (prefix ++ "  - " ++ py_str w type ++ ": " ++ py_str w name
                  ++ " (" ++ py_str w id ++ ")")
          else ret tt) = Returned tt.
Proof.
  intros ((s & Htype) & (vs & Hvalues)).
  rewrite Htype, bind_lift_returned. cbn [startswith]. rewrite bind_lift_returned.
  destruct (Str.startswith s "aws_") eqn:Haws; [| reflexivity].
  destruct r as [| | | | | d]; try discriminate Htype.
  assert (subscript (VDict d) "type" = Returned (VStr s)) as ->.
  { unfold get_or in Htype. unfold subscript.
    destruct (lookup d "type"); [exact Htype |].
    inversion Htype; subst. discriminate Haws. }
  rewrite Hvalues. unfold get. cbn [get_or]. now rewrite !bind_lift_returned.
Qed.

(** Enough depth prints the summary of a well-shaped module and returns. *)
Lemma print_module_resources_returns (w : World) (depth : nat) :
  forall n module_data prefix,
    module_ok n module_data -> (n <= depth)%nat ->
    result (print_module_resources w depth module_data prefix) = Returned tt.
Proof.
  induction depth as [| depth IH]; intros n module_data prefix Hok Hle.
  - inversion Hok; subst. lia.
  - inversion Hok as [n' d resources children Hres Hrok Hch Hcok]; subst.
    cbn [print_module_resources]. rewrite Hres, Hch.
    rewrite bind_lift_returned. cbn [len]. rewrite bind_lift_returned.
    rewrite (result_bind _ _ tt) by reflexivity.
    rewrite (result_bind _ _ tt).
    + rewrite bind_lift_returned. cbn [for_each]. apply result_for_list.
      intros child Hchild. rewrite Forall_forall in Hcok. specialize (Hcok child Hchild).
      inversion Hcok; subst. cbn [get_or]. rewrite bind_lift_returned.
      rewrite (result_bind _ _ tt) by reflexivity.
      apply (IH (S n)); [exact Hcok | lia].
    + cbn [for_each]. apply result_for_list. intros r Hr.
      apply resource_summary_returns. rewrite Forall_forall in Hrok. now apply Hrok.
Qed.

Lemma take_chars_prefix (n : nat) (s : string) :
  exists rest, s = Str.take_chars n s ++ rest.
Proof.
  revert n. induction s as [| c s IH]; intros n; simpl.
  - now exists "".
  - destruct (Str.is_continuation c).
    + destruct (IH n) as [rest Hrest]. exists rest. simpl. now rewrite <- Hrest.
    + destruct n as [| k].
      * now exists (String c s).
      * destruct (IH k) as [rest Hrest]. exists rest. simpl. now rewrite <- Hrest.
Qed.

Lemma take_chars_len (n : nat) (s : string) : (Str.len (Str.take_chars n s) <= n)%nat.
Proof.
  revert n. induction s as [| c s IH]; intros n; simpl.
  - lia.
  - destruct (Str.is_continuation c) eqn:E.
    + simpl. rewrite E. apply IH.
    + destruct n as [| k]; simpl; [lia |]. rewrite E. specialize (IH k). lia.
Qed.

(** The summary of a parsed document, as [get_show_output] prints it. *)
Lemma summary_no_usage (w : World) (output : value) :
  no_usage (echo (Str.nl ++ "Terraform output summary:") ;;
            has_values <- lift (contains "values" output) ;;
            (if has_values : bool then
               echo "- Found values section" ;;
               values <- lift (subscript output "values") ;;
               has_root <- lift (contains "root_module" values) ;;
               if has_root : bool then
                 values <- lift (subscript output "values") ;;
                 root <- lift (subscript values "root_module") ;;
                 print_module_resources w (recursion_limit w) root ""
               else ret tt
             else ret tt) ;;
            ret output).
Proof. unfold echo. split_no_usage. apply no_usage_print_module_resources. Qed.

Lemma summary_returns (w : World) (output : value) :
  summary_ok w output ->
  result (echo (Str.nl ++ "Terraform output summary:") ;;
          has_values <- lift (contains "values" output) ;;
          (if has_values : bool then
             echo "- Found values section" ;;
             values <- lift (subscript output "values") ;;
             has_root <- lift (contains "root_module" values) ;;
             if has_root : bool then
               values <- lift (subscript output "values") ;;
               root <- lift (subscript values "root_module") ;;
               print_module_resources w (recursion_limit w) root ""
             else ret tt
           else ret tt) ;;
          ret output) = Returned output.
Proof.
  intros Hok. rewrite (result_bind _ _ tt) by reflexivity.
  destruct Hok as [Hno | (values & Hvalues & Hroot)].
  - rewrite Hno, bind_lift_returned. reflexivity.
  - rewrite (subscript_of_contains _ _ _ Hvalues), bind_lift_returned.
    rewrite (result_bind _ _ tt); [reflexivity |].
    rewrite (result_bind _ _ tt) by reflexivity.
    rewrite Hvalues, bind_lift_returned.
    destruct Hroot as [Hno | (root & n & Hroot & Hmod & Hle)].
    + rewrite Hno, bind_lift_returned. reflexivity.
    + rewrite (subscript_of_contains _ _ _ Hroot), !bind_lift_returned.
      rewrite Hroot, bind_lift_returned.
      now apply (print_module_resources_returns w (recursion_limit w) n).
Qed.

Lemma result_bind_inv {A B} (m : IO A) (k : A -> IO B) (v : B) :
  result (bind m k) = Returned v ->
  exists a, result m = Returned a /\ result (k a) = Returned v.
Proof.
  destruct m as [t [a | e]]; [| discriminate].
  rewrite bind_returned. intros H. exists a. split; [reflexivity | exact H].
Qed.

Lemma result_then_ret {A B} (m : IO A) (x v : B) :
  result (m ;; ret x) = Returned v -> v = x.
Proof.
  destruct m as [t [a | e]]; [| discriminate].
  rewrite bind_returned. cbn. congruence.
Qed.

(** A directory that fails validation is not handed to [terraform]: the
    error of the validation is the error of the collector, and nothing is
    run. *)
Lemma get_show_output_validation_error (w : World) (self : TerraformAnalyzer)
      (t : list event) (e : exn) :
  validate_terraform_directory w self = (t, Raised e) ->
  get_show_output w self = (t, Raised e).
Proof. intros H. unfold get_show_output. now rewrite H. Qed.

(** C5, as it is stated, fails in both directions.  In a directory without
    [.tf] files a usage error is raised although the command line tool would
    exit with 0 and print valid JSON; it is not even run.  And valid JSON is
    not always returned: on the document [5] the summary raises a type
    error. *)
Lemma usage_error_without_terraform_failure :
  let self := {| working_dir := "/work" |} in
  (let w := terraform_world ["README.md"] true (clean_exit "{}") (Some (VDict [])) in
   terraform_show w "/work" = inr (clean_exit "{}")
   /\ returncode (clean_exit "{}") = 0%Z
   /\ json_loads w (stdout (clean_exit "{}")) = Some (VDict [])
   /\ exists message, get_show_output w self = ([], Raised (UsageError message)))
  /\ (let w := terraform_world ["main.tf"] true (clean_exit "5") (Some (VInt 5)) in
      json_loads w (stdout (clean_exit "5")) = Some (VInt 5)
      /\ get_show_output w self
         = ([Run terraform_argv "/work"; Echo (Str.nl ++ "Terraform output summary:")],
            Raised TypeError)).
Proof.
  cbv zeta. split.
  - repeat split. eexists. reflexivity.
  - split; reflexivity.
Qed.

(** C5, amended.  In a directory that passes validation, [get_show_output]
    runs [terraform show -json] and raises a usage error if and only if the
    tool exits with a code other than 0 or its output is not valid JSON.
    After a non-zero exit the message ends with the tool's standard error;
    after output that does not parse it holds the first 200 characters of
    that output.  On valid JSON it raises no usage error, whatever it
    returns is the parsed document, and it does return it when the summary
    of the document can be printed. *)
Theorem get_show_output_usage_errors (w : World) (self : TerraformAnalyzer)
        (names : list string) (p : completed_process) :
  listdir w (working_dir self) = inr names ->
  tf_files names <> [] ->
  path_exists w (path_join (working_dir self) ".terraform") = true ->
  terraform_show w (working_dir self) = inr p ->
  let run := get_show_output w self in
  ((exists message, result run = Raised (UsageError message))
   <-> (returncode p <> 0%Z \/ json_loads w (stdout p) = None))
  /\ (returncode p <> 0%Z ->
      run = ([Run terraform_argv (working_dir self)], Raised (UsageError (show_failed p))))
  /\ (returncode p = 0%Z -> json_loads w (stdout p) = None ->
      run = ([Run terraform_argv (working_dir self)], Raised (UsageError (parse_failed p)))
      /\ (exists rest, stdout p = Str.take_chars 200 (stdout p) ++ rest)
      /\ (Str.len (Str.take_chars 200 (stdout p)) <= 200)%nat)
  /\ (forall output,
         returncode p = 0%Z -> json_loads w (stdout p) = Some output ->
         (forall v, result run = Returned v -> v = output)
         /\ (summary_ok w output -> result run = Returned output)).
Proof.
  intros Hls Htf Hmeta Hshow. cbv zeta. unfold get_show_output.
  rewrite (validate_passes w self names Hls Htf Hmeta), bind_ret, bind_emit, Hshow.
  rewrite bind_lift_returned. cbn [trace result fst snd].
  destruct (Z.eqb_spec (returncode p) 0) as [Hzero | Hnz]; cbn [negb].
  - destruct (json_loads w (stdout p)) as [output |] eqn:Hparse.
    + split; [| split; [| split]].
      * split.
        -- intros [message H]. exfalso. exact (summary_no_usage w output message H).
        -- intros [H | H]; [contradiction | discriminate].
      * contradiction.
      * discriminate.
      * intros output' _ Hout. inversion Hout; subst output'. split.
        -- intros v Hv.
           apply result_bind_inv in Hv as (_ & _ & Hv).
           apply result_bind_inv in Hv as (has_values & _ & Hv).
           exact (result_then_ret _ _ _ Hv).
        -- apply summary_returns.
    + split; [| split; [| split]].
      * split; [intros _; now right | intros _; eexists; reflexivity].
      * contradiction.
      * intros _ _. split; [reflexivity | split].
        -- apply take_chars_prefix.
        -- apply take_chars_len.
      * discriminate.
  - split; [| split; [| split]].
    + split; [intros _; now left | intros _; eexists; reflexivity].
    + reflexivity.
    + contradiction.
    + contradiction.
Qed.

Lemma get_show_output_witness :
  get_show_output (terraform_world ["main.tf"] true failed_exit None)
                  {| working_dir := "/work" |}
  = ([Run terraform_argv "/work"],
     Raised (UsageError ("terraform show failed:" ++ Str.nl
                         ++ "Error: No state file was found!"))).
Proof.
  destruct (get_show_output_usage_errors
              (terraform_world ["main.tf"] true failed_exit None)
              {| working_dir := "/work" |} ["main.tf"] failed_exit
              eq_refl ltac:(discriminate) eq_refl eq_refl) as (_ & H & _).
  apply H. discriminate.
Defined.

Example sample_state_summary :
  get_show_output (terraform_world ["main.tf"] true (clean_exit "<state>") (Some sample_state))
                  {| working_dir := "/work" |}
  = ([ Run terraform_argv "/work";
       Echo (Str.nl ++ "Terraform output summary:");
       Echo "- Found values section";
       Echo "- Found 2 resources in module";
       Echo "  - aws_s3_bucket: logs (b-1)";
       Echo "- Child module: module.net";
       Echo "  - Found 1 resources in module";
       Echo "    - aws_vpc: main (no id)" ],
     Returned sample_state).
Proof. vm_compute. reflexivity. Qed.

Example sample_state_ok : summary_ok bare_world sample_state.
Proof.
  right. eexists. split; [reflexivity |]. right. eexists. exists 2%nat.
  split; [reflexivity |]. split; [| simpl; lia].
  eapply module_ok_intro; [reflexivity | | reflexivity |].
  - repeat constructor; eexists; reflexivity.
  - constructor; [| constructor].
    eapply module_ok_intro; [reflexivity | | reflexivity | constructor].
    repeat constructor; eexists; reflexivity.
Qed.

(** ** The configuration loader *)

Lemma first_existing_find (w : World) (locations : list string) (config_file : option string) :
  first_existing w locations config_file
  = match find (path_exists w) locations with
    | Some loc => ([Echo ("Found config file: " ++ loc)], Returned (Some loc))
    | None => ret config_file
    end.
Proof.
  induction locations as [| loc rest IH]; simpl.
  - reflexivity.
  - destruct (path_exists w loc); [reflexivity | exact IH].
Qed.

(** The guarded block of [load_config] on a file that exists. *)
Lemma load_config_on_file (w : World) (path : string) :
  path <> "" -> path_exists w path = true ->
  load_config w (Some path) = load_file w path.
Proof.
  intros Hne Hex. unfold load_config, load_file.
  assert (truthy (of_option (Some path)) = true) as Ht.
  { simpl. destruct (String.eqb_spec path ""); [contradiction | reflexivity]. }
  rewrite Ht. cbn [negb]. rewrite bind_ret.
  cbn [of_option truthy] in Ht. cbn [truthy]. rewrite Ht, Hex. cbn [negb orb].
  destruct (read_file w path) as [m | text]; [reflexivity |].
  rewrite bind_lift_returned.
  destruct (yaml_safe_load w text) as [m | v]; reflexivity.
Qed.

Lemma load_config_missing (w : World) (path : string) :
  path <> "" -> path_exists w path = false ->
  load_config w (Some path) = no_config.
Proof.
  intros Hne Hex. unfold load_config.
  assert (truthy (of_option (Some path)) = true) as Ht.
  { simpl. destruct (String.eqb_spec path ""); [contradiction | reflexivity]. }
  rewrite Ht. cbn [negb]. rewrite bind_ret.
  cbn [of_option truthy] in Ht. cbn [truthy]. rewrite Ht, Hex. reflexivity.
Qed.

Lemma load_config_default (w : World) (config_file : option string) :
  config_file = None \/ config_file = Some "" ->
  ~ In "" (default_locations w) ->
  load_config w config_file
  = match find (path_exists w) (default_locations w) with
    | Some loc => echo ("Found config file: " ++ loc) ;; load_file w loc
    | None => no_config
    end.
Proof.
  intros Hnone Hlocs.
  assert (truthy (of_option config_file) = false) as Ht
      by (destruct Hnone as [-> | ->]; reflexivity).
  unfold load_config at 1. rewrite Ht. cbn [negb]. rewrite first_existing_find.
  destruct (find (path_exists w) (default_locations w)) as [loc |] eqn:Hfind.
  - apply find_some in Hfind as [Hin Hex].
    assert (loc <> "") as Hne by (intros ->; contradiction).
    assert (truthy (VStr loc) = true) as Hl.
    { simpl. destruct (String.eqb_spec loc ""); [contradiction | reflexivity]. }
    rewrite bind_returned. unfold echo. rewrite bind_emit.
    rewrite Hl, Hex. cbn [negb orb]. unfold load_file.
    destruct (read_file w loc) as [m | text]; [reflexivity |].
    rewrite bind_lift_returned.
    destruct (yaml_safe_load w text) as [m | v]; reflexivity.
  - rewrite bind_ret. destruct Hnone as [-> | ->]; reflexivity.
Qed.

(** C6, as it is stated, fails: with an explicit path that does not exist
    the default locations are not searched.  [~/.cased/config.yml] exists
    and is loaded when no path is given, yet with the path [missing.yml] the
    loader reports that there is no config file and returns the empty
    mapping. *)
Lemma explicit_path_skips_defaults :
  find (path_exists home_world) ("missing.yml" :: default_locations home_world)
  = Some "~/.cased/config.yml"
  /\ load_config home_world None
     = ([Echo "Found config file: ~/.cased/config.yml"; Echo "Loaded config: <json>"],
        Returned home_config)
  /\ load_config home_world (Some "missing.yml")
     = ([Echo "No config file found"], Returned (VDict [])).
Proof. repeat split. Qed.

(** C6, amended.  With an explicit path, that path alone is considered: the
    file is loaded when it exists, and when it does not the configuration is
    empty, without error and without a look at the default locations.
    Without an explicit path the loader takes the first that exists of
    [~/.config/cased/config.yml], [~/.cased/config.yml] and [./.cased.yml],
    in this order, and the configuration is empty when none does.  Loading a
    file that cannot be read or does not parse as YAML raises a usage error;
    a file that parses gives its mapping. *)
Theorem load_config_search (w : World) (config_file : option string) :
  ~ In "" (default_locations w) ->
  default_locations w
  = [expanduser w "~/.config/cased/config.yml"; expanduser w "~/.cased/config.yml";
     ".cased.yml"]
  /\ (forall path, config_file = Some path -> path <> "" ->
      load_config w config_file
      = if path_exists w path then load_file w path else no_config)
  /\ (config_file = None \/ config_file = Some "" ->
      load_config w config_file
      = match find (path_exists w) (default_locations w) with
        | Some loc => echo ("Found config file: " ++ loc) ;; load_file w loc
        | None => no_config
        end)
  /\ (forall path,
         (forall m, read_file w path = inl m ->
                    load_file w path = ([], Raised (load_failed m)))
         /\ (forall text m, read_file w path = inr text -> yaml_safe_load w text = inl m ->
                            load_file w path = ([], Raised (load_failed m)))
         /\ (forall text v, read_file w path = inr text -> yaml_safe_load w text = inr v ->
                            result (load_file w path) = Returned (py_or v (VDict [])))).
Proof.
  intros Hlocs. split; [reflexivity |]. split; [| split].
  - intros path -> Hne. destruct (path_exists w path) eqn:Hex.
    + now apply load_config_on_file.
    + now apply load_config_missing.
  - intros Hnone. now apply load_config_default.
  - intros path. unfold load_file. repeat split.
    + intros m ->. reflexivity.
    + intros text m -> ->. reflexivity.
    + intros text v -> ->. reflexivity.
Qed.

Lemma load_config_witness :
  load_config home_world None
  = (echo "Found config file: ~/.cased/config.yml" ;;
     load_file home_world "~/.cased/config.yml").
Proof.
  destruct (load_config_search home_world None) as (_ & _ & H & _).
  - simpl. intros [H | [H | [H | []]]]; discriminate H.
  - exact (H (or_introl eq_refl)).
Defined.

(** ** Precedence of the settings *)

Lemma or_else_returned (x y : value) :
  or_else x (lift (Returned y)) = ret (py_or x y).
Proof. unfold or_else, py_or. now destruct (truthy x). Qed.

Lemma get_dict (d : dict) (k : string) : get (VDict d) k = Returned (config_value d k).
Proof. reflexivity. Qed.


(** When [resolve] returns: a project, an environment, a working directory
    that is a path, and a key unless the run is dry. *)
Lemma resolve_returns (w : World) (d : dict) (project environment api_key : option string)
      (api_url : string) (working_dir : option string) (dry_run local : bool) :
  truthy (py_or (of_option project) (config_value d "project")) = true ->
  truthy (py_or (of_option environment) (config_value d "environment")) = true ->
  (truthy (of_option working_dir) = true \/ truthy (config_value d "working_dir") = false
   \/ exists p, config_value d "working_dir" = VStr p) ->
  (dry_run = true \/ truthy (resolved_api_key w d api_key) = true) ->
  exists s,
    resolve w (VDict d) project environment api_key api_url working_dir dry_run local
    = ([], Returned s).
Proof.
  intros Hp He Hw Hk. unfold resolve. rewrite !get_dict. rewrite !or_else_returned.
  cbn [get_or]. rewrite or_else_returned.
  assert ((if negb (truthy (of_option api_key))
           then ret (py_or (of_option (getenv w "CASED_API_KEY")) (config_value d "api_key"))
           else ret (of_option api_key)) = ret (resolved_api_key w d api_key)) as ->
      by (unfold resolved_api_key; now destruct (truthy (of_option api_key))).
  assert ((if local then ret (VStr "http://localhost:3000")
           else if String.eqb api_url default_api_url
                then ret (py_or (of_option (getenv w "CASED_API_URL"))
                                (match lookup d "api_url" with
                                 | Some x => x
                                 | None => VStr api_url
                                 end))
                else ret (VStr api_url)) = ret (resolved_api_url w d api_url local)) as ->
      by (unfold resolved_api_url; destruct local;
          [| destruct (String.eqb api_url default_api_url)]; reflexivity).
  rewrite !bind_ret. rewrite Hp. cbn [negb]. rewrite He. cbn [negb].
  assert (negb dry_run && negb (truthy (resolved_api_key w d api_key)) = false) as Hkey
      by (destruct Hk as [-> | ->]; [reflexivity | now destruct dry_run]).
  destruct Hw as [Hw | [Hw | [p Hw]]].
  - rewrite Hw. cbn [negb]. rewrite bind_ret, Hkey. eexists. reflexivity.
  - destruct (truthy (of_option working_dir)); cbn [negb];
      rewrite ?bind_lift_returned, ?Hw, !bind_ret, Hkey; eexists; reflexivity.
  - destruct (truthy (of_option working_dir)); cbn [negb].
    + rewrite bind_ret, Hkey. eexists. reflexivity.
    + rewrite !bind_lift_returned, Hw. cbn [expanduser_value].
      destruct (truthy (VStr p));
        rewrite ?bind_lift_returned, !bind_ret, Hkey; eexists; reflexivity.
Qed.

Lemma truthy_nonempty (v : string) : v <> "" -> truthy (VStr v) = true.
Proof. intros H. simpl. now destruct (String.eqb_spec v ""). Qed.



(** Flags given with an empty value, and variables set to an empty value,
    fall through: the key comes from the variable, or from the config file
    when the variable is empty too; a URL flag that spells out the default
    gives way to the variable. *)
Example empty_values_fall_through :
  (exists s, cli_resolve env_world (VDict file_config) empty_flags = ([], Returned s)
             /\ s_api_key s = VStr "from-env" /\ s_api_url s = VStr "from-env"
             /\ s_project s = VStr "from-file" /\ s_environment s = VStr "from-file")
  /\ (exists s, cli_resolve bare_world (VDict file_config) empty_flags = ([], Returned s)
                /\ s_api_key s = VStr "from-file" /\ s_api_url s = VStr "from-file").
Proof. split; eexists; (split; [reflexivity |]); repeat split. Qed.


(** ** A whole run

    The config file [.cased.yml] sets the project and the environment, and
    the command is run with [--dry-run] alone in an initialised Terraform
    directory. *)

Example dry_run_scenario :
  cli_analyze scenario_world dry_run_flags
  = ([ Echo "Found config file: .cased.yml";
       Echo "Loaded config: <json>";
       Echo "Running terraform show...";
       Run terraform_argv "/work";
       Echo (Str.nl ++ "Terraform output summary:");
       Secho (Str.nl ++ "Dry run mode - showing what would be analyzed:") yellow false;
       Secho (Str.nl ++ "=== Dry Run - API Request Details ===" ++ Str.nl) yellow false;
       Echo "URL: https://app.cased.com/api/v1/projects/acme/infra/infra/local";
       Echo (Str.nl ++ "Headers:");
       Echo "  Authorization: Bearer [REDACTED]";
       Echo "  Content-Type: application/json";
       Echo (Str.nl ++ "Payload:");
       Echo "<json>";
       Echo (Str.nl ++ "No API call will be made in dry-run mode.") ],
     Returned tt).
Proof. vm_compute. reflexivity. Qed.

(** The same run without [--dry-run] stops for want of a key; the usage
    error is caught by the last handler of [analyze] and the command
    aborts. *)
Example live_run_without_key :
  cli_analyze scenario_world
    {| f_project := None; f_environment := None; f_api_key := None; f_api_url := None;
       f_working_dir := None; f_dry_run := false; f_config := None; f_local := false |}
  = ([ Echo "Found config file: .cased.yml";
       Echo "Loaded config: <json>";
       Secho (Str.nl ++ "Unexpected error: --api-key is required unless using --dry-run")
             red false ],
     Raised ClickAbort).
Proof. vm_compute. reflexivity. Qed.

(** * Further properties *)

(** ** What a computation emits and how it can end *)

Lemma events_try_except {A} (P : event -> Prop) (m : IO A) (handler : exn -> IO A) :
  Forall P (trace m) -> (forall e, Forall P (trace (handler e))) ->
  Forall P (trace (try_except m handler)).
Proof.
  intros Hm Hh. destruct m as [t [a | e]]; [exact Hm |].
  unfold try_except. specialize (Hh e). destruct (handler e) as [t' r].
  apply Forall_app. split; [exact Hm | exact Hh].
Qed.

Lemma events_weaken {A} (P Q : event -> Prop) (m : IO A) :
  (forall e, P e -> Q e) -> Forall P (trace m) -> Forall Q (trace m).
Proof. intros H. apply Forall_impl. exact H. Qed.

Lemma plain_printed (e : event) : plain e -> printed e.
Proof. destruct e; simpl; auto. Qed.

Lemma raises_only_bind {A B} (P : exn -> Prop) (m : IO A) (k : A -> IO B) :
  raises_only P m -> (forall a, raises_only P (k a)) -> raises_only P (bind m k).
Proof.
  intros Hm Hk e. destruct (result m) as [a | e'] eqn:E.
  - rewrite (result_bind m k a E). apply Hk.
  - rewrite (result_bind_raised m k e' E). intros H. inversion H; subst. now apply Hm.
Qed.

Lemma raises_only_ret {A} (P : exn -> Prop) (a : A) : raises_only P (ret a).
Proof. intros e. discriminate. Qed.

Lemma raises_only_emit (P : exn -> Prop) (e : event) : raises_only P (emit e).
Proof. intros e'. discriminate. Qed.

Lemma raises_only_raise {A} (P : exn -> Prop) (e : exn) : P e -> raises_only P (@raise A e).
Proof. intros H e' E. inversion E; subst. exact H. Qed.

Lemma raises_only_for_list {A} (P : exn -> Prop) (items : list A) (body : A -> IO unit) :
  (forall x, raises_only P (body x)) -> raises_only P (for_list items body).
Proof.
  intros Hbody. induction items as [| x rest IH]; simpl.
  - apply raises_only_ret.
  - apply raises_only_bind; [apply Hbody | intros _; exact IH].
Qed.

Lemma raises_only_for_each (P : exn -> Prop) (v : value) (body : value -> IO unit) :
  P TypeError -> (forall x, raises_only P (body x)) -> raises_only P (for_each v body).
Proof.
  intros Ht Hbody. destruct v; simpl;
    try (apply raises_only_raise; exact Ht); now apply raises_only_for_list.
Qed.

Lemma data_error_subscript (v : value) (k : string) :
  raises_only data_error (lift (subscript v k)).
Proof.
  intros e. destruct v; simpl; try (intros H; inversion H; exact I).
  destruct (lookup entries k); intros H; inversion H; exact I.
Qed.

Lemma data_error_get_or (v : value) (k : string) (default : value) :
  raises_only data_error (lift (get_or v k default)).
Proof. intros e. destruct v; simpl; intros H; inversion H; exact I. Qed.

Lemma data_error_add (a b : value) : raises_only data_error (lift (add a b)).
Proof.
  intros e. unfold add, lift, result. cbn [snd].
  destruct a, b; cbn; try (intros H; inversion H; exact I);
    repeat match goal with
           | |- context [if ?c then _ else _] => destruct c
           end; intros H; inversion H; exact I.
Qed.

(** Splits a goal [raises_only data_error] along the sequence. *)
Ltac split_raises :=
  repeat first
    [ apply raises_only_ret | apply raises_only_emit
    | apply data_error_subscript | apply data_error_get_or | apply data_error_add
    | apply raises_only_for_each; [exact I | intros]
    | apply raises_only_bind; [| intros]
    | match goal with
      | |- raises_only _ (if ?b then _ else _) => destruct b
      end ].

(** ** The printer only prints *)

Lemma printed_for_each_plain (v : value) (body : value -> IO unit) :
  (forall x, Forall plain (trace (body x))) -> Forall printed (trace (for_each v body)).
Proof.
  intros H. apply (events_weaken plain printed); [exact plain_printed |].
  now apply events_for_each.
Qed.

Lemma print_drift_report_only_prints_events (w : World) (report : value) :
  Forall printed (trace (print_drift_report w report)).
Proof.
  unfold print_drift_report, bucket, success_line, managed_heading, unmanaged_heading,
    missing_heading, echo.
  split_events;
    try (apply events_emit; exact I);
    try (apply printed_for_each_plain; intros; first [apply plain_print_managed
                                                     | apply plain_print_plain]).
Qed.

(** X5.  Whatever the report is, [print_drift_report] only writes to the
    terminal: it runs nothing and sends nothing.  When it fails it fails
    with a key, type or attribute error, never with a usage error. *)
Theorem print_drift_report_only_prints (w : World) (report : value) :
  Forall printed (trace (print_drift_report w report))
  /\ raises_only data_error (print_drift_report w report).
Proof.
  split.
  - apply print_drift_report_only_prints_events.
  - unfold print_drift_report, bucket, print_managed, print_plain, resource_line,
      type_line, change_line, get, echo, secho.
    split_raises.
Qed.

(** ** The command as a whole *)

Lemma printed_local (e : event) : printed e -> local_event e.
Proof. destruct e; simpl; auto. Qed.

Lemma printed_load_config (w : World) (config_file : option string) :
  Forall printed (trace (load_config w config_file)).
Proof.
  unfold load_config. apply events_bind.
  - destruct (negb (truthy (of_option config_file))); [| apply events_ret].
    generalize (default_locations w). intros locations.
    induction locations as [| loc rest IH]; cbn [first_existing]; [apply events_ret |].
    destruct (path_exists w loc); [| exact IH].
    unfold echo. apply events_bind; [apply events_emit; exact I | intros; apply events_ret].
  - intros [path |].
    + destruct (negb (truthy (VStr path)) || negb (path_exists w path)).
      * unfold echo. apply events_bind; [apply events_emit; exact I | intros; apply events_ret].
      * apply events_try_except; [| intros; apply events_raise].
        unfold echo. split_events. apply events_emit. exact I.
    + unfold echo. apply events_bind; [apply events_emit; exact I | intros; apply events_ret].
Qed.

(** [resolve] emits nothing. *)
Lemma trace_resolve (w : World) (cfg : value) (project environment api_key : option string)
      (api_url : string) (working_dir : option string) (dry_run local : bool) :
  trace (resolve w cfg project environment api_key api_url working_dir dry_run local) = [].
Proof.
  assert (Forall (fun _ => False)
                 (trace (resolve w cfg project environment api_key api_url working_dir
                                 dry_run local))) as H.
  { unfold resolve, or_else. split_events. }
  destruct (trace (resolve w cfg project environment api_key api_url working_dir
                           dry_run local)); [reflexivity |].
  inversion H; contradiction.
Qed.

Lemma printed_print_module_resources (w : World) (depth : nat) :
  forall module_data prefix,
    Forall printed (trace (print_module_resources w depth module_data prefix)).
Proof.
  induction depth as [| depth IH]; intros module_data prefix.
  - apply events_raise.
  - cbn [print_module_resources]. unfold echo.
    apply events_bind; [apply events_lift | intros resources].
    apply events_bind; [apply events_lift | intros n].
    apply events_bind; [apply events_emit; exact I | intros _].
    apply events_bind.
    + apply events_for_each. intros r. split_events. apply events_emit. exact I.
    + intros _. apply events_bind; [apply events_lift | intros children].
      apply events_for_each. intros child.
      apply events_bind; [apply events_lift | intros address].
      apply events_bind; [apply events_emit; exact I | intros _]. apply IH.
Qed.

Lemma local_get_show_output (w : World) (self : TerraformAnalyzer) :
  Forall local_event (trace (get_show_output w self)).
Proof.
  unfold get_show_output. apply events_bind.
  - unfold validate_terraform_directory. apply events_bind; [apply events_lift |].
    intros names. destruct (tf_files names); [apply events_raise |].
    destruct (negb (path_exists w (path_join (working_dir self) ".terraform")));
      [apply events_raise | apply events_ret].
  - intros _. apply events_bind; [apply events_emit; exact I | intros _].
    apply events_bind; [apply events_lift | intros p].
    destruct (negb (returncode p =? 0)%Z); [apply events_raise |].
    destruct (json_loads w (stdout p)) as [output |]; [| apply events_raise].
    unfold echo. apply events_bind; [apply events_emit; exact I | intros _].
    apply events_bind; [apply events_lift | intros has_values].
    apply events_bind; [| intros; apply events_ret].
    destruct has_values; [| apply events_ret].
    apply events_bind; [apply events_emit; exact I | intros _].
    apply events_bind; [apply events_lift | intros values].
    apply events_bind; [apply events_lift | intros has_root].
    destruct has_root; [| apply events_ret].
    apply events_bind; [apply events_lift | intros values'].
    apply events_bind; [apply events_lift | intros root].
    apply (events_weaken printed local_event); [exact printed_local |].
    apply printed_print_module_resources.
Qed.

Lemma printed_on_error (w : World) (e : exn) : Forall printed (trace (on_error w e)).
Proof.
  unfold on_error, secho. apply events_bind; [| intros; apply events_raise].
  destruct (is_request_exception e); apply events_emit; exact I.
Qed.

Lemma local_analyze_dry_run (w : World) (project environment api_key : option string)
      (api_url : string) (working_dir config : option string) (local : bool) :
  Forall local_event
         (trace (analyze w project environment api_key api_url working_dir true config local)).
Proof.
  unfold analyze. apply events_try_except.
  - apply events_bind.
    { apply (events_weaken printed local_event); [exact printed_local |].
      apply printed_load_config. }
    intros cfg. apply events_bind; [rewrite trace_resolve; constructor | intros s].
    apply events_bind; [apply events_lift | intros api].
    apply events_bind; [apply events_emit; exact I | intros _].
    apply events_bind; [apply local_get_show_output | intros show_output].
    apply events_bind; [apply events_emit; exact I | intros _].
    apply events_bind.
    + rewrite analyze_terraform_dry_run. unfold dry_run_output. cbn [trace fst].
      repeat constructor.
    + intros report. apply (events_weaken printed local_event); [exact printed_local |].
      apply print_drift_report_only_prints_events.
  - intros e. apply (events_weaken printed local_event); [exact printed_local |].
    apply printed_on_error.
Qed.

(** X2.  With [--dry-run], the whole command sends no request, whatever the
    flags, the environment, the config file, the directory and the output of
    [terraform] are, and however the run ends. *)
Theorem analyze_dry_run_sends_nothing (w : World) (project environment api_key : option string)
        (api_url : string) (working_dir config : option string) (local : bool) :
  let run := analyze w project environment api_key api_url working_dir true config local in
  Forall local_event (trace run)
  /\ forall url body headers, ~ In (Post url body headers) (trace run).
Proof.
  cbv zeta.
  pose proof (local_analyze_dry_run w project environment api_key api_url working_dir
                                    config local) as H.
  split; [exact H |].
  intros url body headers Hin. rewrite Forall_forall in H. exact (H _ Hin).
Qed.


Lemma trace_bind_eq {A B} (m : IO A) (k : A -> IO B) :
  trace (bind m k)
  = (trace m ++ match result m with
                | Returned a => trace (k a)
                | Raised _ => []
                end)%list.
Proof.
  destruct m as [t [a | e]].
  - now rewrite bind_returned.
  - cbn. now rewrite app_nil_r.
Qed.

Lemma result_bind_eq {A B} (m : IO A) (k : A -> IO B) :
  result (bind m k)
  = match result m with
    | Returned a => result (k a)
    | Raised e => Raised e
    end.
Proof. destruct m as [t [a | e]]; [now rewrite bind_returned | reflexivity]. Qed.

Lemma trace_try_except {A} (m : IO A) (handler : exn -> IO A) :
  trace (try_except m handler)
  = (trace m ++ match result m with
                | Returned _ => []
                | Raised e => trace (handler e)
                end)%list.
Proof.
  destruct m as [t [a | e]]; cbn.
  - now rewrite app_nil_r.
  - now destruct (handler e).
Qed.

Lemma result_try_except {A} (m : IO A) (handler : exn -> IO A) :
  result (try_except m handler)
  = match result m with
    | Returned a => Returned a
    | Raised e => result (handler e)
    end.
Proof. destruct m as [t [a | e]]; cbn; [reflexivity | now destruct (handler e)]. Qed.

Lemma result_on_error (w : World) (e : exn) : result (on_error w e) = Raised ClickAbort.
Proof. unfold on_error, secho. now destruct (is_request_exception e). Qed.

(** Without [--dry-run], [resolve] returns only with a key. *)
Lemma resolve_without_key (w : World) (cfg : value) (project environment api_key : option string)
      (api_url : string) (working_dir : option string) (local : bool) (s : settings) :
  truthy (of_option api_key) = false ->
  truthy (of_option (getenv w "CASED_API_KEY")) = false ->
  (forall v, get cfg "api_key" = Returned v -> truthy v = false) ->
  result (resolve w cfg project environment api_key api_url working_dir false local)
  <> Returned s.
Proof.
  intros Hflag Henv Hcfg H. unfold resolve in H. rewrite Hflag in H. cbn [negb] in H.
  unfold or_else at 1 in H. rewrite Henv in H.
  apply result_bind_inv in H as (key & Hkey & H).
  assert (truthy key = false) as Hfalsy.
  { apply Hcfg. unfold lift, result in Hkey. exact Hkey. }
  apply result_bind_inv in H as (url & _ & H).
  apply result_bind_inv in H as (p & _ & H).
  destruct (negb (truthy p)); [discriminate H |].
  apply result_bind_inv in H as (env & _ & H).
  destruct (negb (truthy env)); [discriminate H |].
  apply result_bind_inv in H as (dir & _ & H).
  rewrite Hfalsy in H. discriminate H.
Qed.

(** X3.  Without [--dry-run] and with no API key in the flag, in
    [CASED_API_KEY] or in the config file, the command stops before it
    touches anything: it only prints, [terraform] is not run, no request is
    sent, and it aborts. *)
Theorem analyze_without_key_stops_early (w : World)
        (project environment api_key : option string) (api_url : string)
        (working_dir config : option string) (local : bool) :
  truthy (of_option api_key) = false ->
  truthy (of_option (getenv w "CASED_API_KEY")) = false ->
  (forall cfg v, result (load_config w config) = Returned cfg ->
                 get cfg "api_key" = Returned v -> truthy v = false) ->
  let run := analyze w project environment api_key api_url working_dir false config local in
  Forall printed (trace run) /\ result run = Raised ClickAbort.
Proof.
  intros Hflag Henv Hcfg. cbv zeta. unfold analyze.
  rewrite trace_try_except, result_try_except, trace_bind_eq, result_bind_eq.
  pose proof (printed_load_config w config) as Hload.
  destruct (result (load_config w config)) as [cfg |] eqn:Hl.
  - rewrite trace_bind_eq, result_bind_eq, trace_resolve.
    destruct (result (resolve w cfg project environment api_key api_url working_dir
                              false local)) as [s | e] eqn:Hr.
    + exfalso. revert Hr. apply resolve_without_key; auto. intros v. now apply Hcfg.
    + split; [| apply result_on_error].
      cbn [app]. rewrite app_nil_r.
      apply Forall_app. split; [exact Hload | apply printed_on_error].
  - split; [| apply result_on_error].
    rewrite app_nil_r. apply Forall_app. split; [exact Hload | apply printed_on_error].
Qed.

Lemma analyze_without_key_witness :
  let run := analyze scenario_world None None None default_api_url None false None false in
  Forall printed (trace run) /\ result run = Raised ClickAbort.
Proof.
  apply (analyze_without_key_stops_early scenario_world None None None default_api_url
                                         None None false).
  - reflexivity.
  - reflexivity.
  - intros cfg v Hcfg Hv. vm_compute in Hcfg. inversion Hcfg; subst cfg.
    vm_compute in Hv. inversion Hv. reflexivity.
Defined.

(** ** The live request *)

Lemma trace_analyze_terraform_live (w : World) (self : CasedAPI)
      (project environment show_output : value) :
  trace (analyze_terraform w self project environment show_output false)
  = [Post (endpoint w self project) (payload environment show_output)
          (request_headers w self)].
Proof.
  unfold analyze_terraform. rewrite bind_emit. cbn [trace fst]. f_equal.
  destruct (http_post w (endpoint w self project) (payload environment show_output)
                      (request_headers w self)) as [m | r]; [reflexivity |].
  rewrite bind_lift_returned. unfold raise_for_status, response_json.
  destruct ((400 <=? status_code r)%Z && (status_code r <? 600)%Z); [reflexivity |].
  rewrite bind_lift_returned. now destruct (json_loads w (body r)).
Qed.

(** X4.  Without [dry_run], [analyze_terraform] sends exactly one request, to
    the endpoint, with the payload and with the key as bearer token, and
    prints nothing.  It returns a value exactly when the service answered
    with a status outside 400..599 and a body that parses as JSON, and the
    value is the parsed body. *)
Theorem live_request_returns_parsed_body (w : World) (self : CasedAPI)
        (project environment show_output : value) :
  let run := analyze_terraform w self project environment show_output false in
  let url := endpoint w self project in
  let sent := payload environment show_output in
  trace run = [Post url sent (request_headers w self)]
  /\ In ("Authorization", "Bearer " ++ py_str w (api_key self)) (request_headers w self)
  /\ forall v,
       result run = Returned v
       <-> exists r,
             http_post w url sent (request_headers w self) = inr r
             /\ ((status_code r < 400)%Z \/ (600 <= status_code r)%Z)
             /\ json_loads w (body r) = Some v.
Proof.
  cbv zeta. split; [apply trace_analyze_terraform_live |].
  split; [left; reflexivity |].
  intros v. unfold analyze_terraform. rewrite bind_emit. cbn [result snd].
  destruct (http_post w (endpoint w self project) (payload environment show_output)
                      (request_headers w self)) as [m | r].
  - split; [discriminate | intros (r & H & _); discriminate H].
  - rewrite bind_lift_returned. unfold raise_for_status, response_json.
    destruct (Z.leb_spec 400 (status_code r)) as [Hlo | Hlo];
      destruct (Z.ltb_spec (status_code r) 600) as [Hhi | Hhi]; cbn [andb].
    + split; [discriminate |]. intros (r' & H & Hs & _). inversion H; subst r'. lia.
    + rewrite bind_lift_returned.
      destruct (json_loads w (body r)) as [parsed |] eqn:E; cbn [lift result snd].
      * split.
        -- intros H. inversion H; subst. exists r. repeat split; auto.
        -- intros (r' & H & _ & Hb). inversion H; subst r'. congruence.
      * split; [discriminate |]. intros (r' & H & _ & Hb). inversion H; subst r'.
        congruence.
    + rewrite bind_lift_returned.
      destruct (json_loads w (body r)) as [parsed |] eqn:E; cbn [lift result snd].
      * split.
        -- intros H. inversion H; subst. exists r. repeat split; auto.
        -- intros (r' & H & _ & Hb). inversion H; subst r'. congruence.
      * split; [discriminate |]. intros (r' & H & _ & Hb). inversion H; subst r'.
        congruence.
    + lia.
Qed.

(** ** Records with a field missing *)

Lemma print_managed_missing (w : World) (d : dict) (k : string) :
  first_unbound d managed_order = Some k ->
  result (print_managed w (VDict d)) = Raised (KeyError k)
  /\ (List.length (trace (print_managed w (VDict d))) <= 1)%nat.
Proof.
  unfold first_unbound, managed_order. cbn [find].
  unfold print_managed, resource_line, type_line, subscript.
  destruct (lookup d "status") eqn:E1; [| intros H; inversion H; split; cbn; auto].
  destruct (lookup d "service_name") eqn:E2; [| intros H; inversion H; split; cbn; auto].
  destruct (lookup d "name") eqn:E3; [| intros H; inversion H; split; cbn; auto].
  destruct (lookup d "id") eqn:E4; [| intros H; inversion H; split; cbn; auto].
  destruct (lookup d "service_type") eqn:E5; [discriminate |].
  intros H; inversion H; split; cbn; auto.
Qed.

(** X6.  When the first managed record of a report lacks one of the fields
    the printer reads, the printer stops with a [KeyError] that names the
    first field missing, in the order status, service_name, name, id,
    service_type.  By then it has printed the heading of the report, the
    heading of the managed section and at most the name line of that
    record. *)
Theorem missing_field_raises_key_error (w : World) (report : value) (d : dict)
        (rest us ms : list value) (k : string) :
  bucket report "managed_resources" = Returned (VList (VDict d :: rest)) ->
  bucket report "unmanaged_resources" = Returned (VList us) ->
  bucket report "missing_resources" = Returned (VList ms) ->
  first_unbound d managed_order = Some k ->
  result (print_drift_report w report) = Raised (KeyError k)
  /\ exists lines,
       trace (print_drift_report w report)
       = Echo report_heading :: managed_heading :: lines
       /\ (List.length lines <= 1)%nat.
Proof.
  intros Hm Hu Hmi Hk.
  assert (truthy report = true) as Ht.
  { unfold bucket, get_or in Hm. destruct report as [| | | | | d']; try discriminate Hm.
    destruct d'; [discriminate Hm | reflexivity]. }
  destruct (print_managed_missing w d k Hk) as [Hres Hlen].
  unfold print_drift_report. rewrite Ht, Hm, Hu, Hmi. cbn [negb add app].
  run_io. cbn [for_each for_list].
  rewrite !trace_bind_eq, !result_bind_eq, Hres. cbn [trace result fst snd].
  split; [reflexivity |]. eexists. split; [reflexivity |].
  rewrite !app_nil_r. exact Hlen.
Qed.

Lemma missing_field_witness :
  result (print_drift_report bare_world
            (VDict [("managed_resources", VList [VDict [("status", VStr "synced")]])]))
  = Raised (KeyError "service_name").
Proof.
  destruct (missing_field_raises_key_error
              bare_world
              (VDict [("managed_resources", VList [VDict [("status", VStr "synced")]])])
              [("status", VStr "synced")] [] [] [] "service_name"
              eq_refl eq_refl eq_refl eq_refl) as [H _].
  exact H.
Defined.

(** ** The whole report *)

Lemma print_plain_returns (w : World) (fg : color) (r : value) :
  has_keys r plain_keys -> print_plain w fg r = (plain_block w fg r, Returned tt).
Proof.
  intros H. unfold print_plain, resource_line, type_line.
  rewrite !(subscript_item r plain_keys) by (auto; unfold plain_keys; simpl; auto 6).
  rewrite !bind_lift_returned. reflexivity.
Qed.

Lemma section_returns (heading : event) (records : list value)
      (body : value -> IO unit) (block : value -> list event) :
  (forall r, In r records -> body r = (block r, Returned tt)) ->
  (if truthy (VList records) then emit heading ;; for_each (VList records) body else ret tt)
  = (section_of heading block records, Returned tt).
Proof.
  intros H. destruct records as [| r rest]; [reflexivity |].
  cbn [truthy for_each section_of]. rewrite bind_emit.
  now rewrite (for_list_returns (r :: rest) body block H).
Qed.

(** X7.  For a report whose buckets are lists of well-formed records, not
    all empty, the printer emits the heading of the report and then the
    three sections in the order managed, unmanaged, missing, each under its
    heading and left out when its bucket is empty; unmanaged records are
    named in yellow and missing ones in red.  It returns. *)
Theorem well_formed_report_output (w : World) (report : value) (rs us ms : list value) :
  bucket report "managed_resources" = Returned (VList rs) ->
  bucket report "unmanaged_resources" = Returned (VList us) ->
  bucket report "missing_resources" = Returned (VList ms) ->
  (rs ++ us ++ ms)%list <> [] ->
  Forall well_formed rs ->
  Forall (fun r => has_keys r plain_keys) us ->
  Forall (fun r => has_keys r plain_keys) ms ->
  print_drift_report w report
  = (Echo report_heading
       :: (section_of managed_heading (managed_block w) rs
           ++ section_of unmanaged_heading (plain_block w yellow) us
           ++ section_of missing_heading (plain_block w red) ms)%list,
     Returned tt).
Proof.
  intros Hm Hu Hmi Hne Hrs Hus Hms.
  assert (truthy report = true) as Ht.
  { unfold bucket, get_or in Hm, Hu, Hmi.
    destruct report as [| | | | | d]; try discriminate Hm.
    destruct d; [| reflexivity]. cbn in Hm, Hu, Hmi.
    inversion Hm; inversion Hu; inversion Hmi; subst. now destruct Hne. }
  assert (truthy (VList ((rs ++ us) ++ ms)) = true) as Hall.
  { rewrite <- app_assoc. cbn. destruct (rs ++ us ++ ms)%list; congruence. }
  unfold print_drift_report. rewrite Ht, Hm, Hu, Hmi. cbn [negb]. unfold echo.
  rewrite bind_emit.
  repeat first [rewrite bind_lift_returned | progress cbn [add]].
  rewrite Hall. cbn [negb].
  rewrite (section_returns managed_heading rs (print_managed w) (managed_block w))
    by (intros r Hr; apply print_managed_returns; rewrite Forall_forall in Hrs; auto).
  rewrite (section_returns unmanaged_heading us (print_plain w yellow) (plain_block w yellow))
    by (intros r Hr; apply print_plain_returns; rewrite Forall_forall in Hus; auto).
  rewrite (section_returns missing_heading ms (print_plain w red) (plain_block w red))
    by (intros r Hr; apply print_plain_returns; rewrite Forall_forall in Hms; auto).
  run_io. reflexivity.
Qed.

Lemma well_formed_report_witness :
  print_drift_report bare_world full_report
  = (Echo report_heading
       :: (section_of managed_heading (managed_block bare_world) [changed_record]
           ++ section_of unmanaged_heading (plain_block bare_world yellow) [stray_record]
           ++ section_of missing_heading (plain_block bare_world red) [lost_record])%list,
     Returned tt).
Proof.
  apply (well_formed_report_output bare_world full_report
           [changed_record] [stray_record] [lost_record]).
  - reflexivity.
  - reflexivity.
  - reflexivity.
  - discriminate.
  - apply Forall_cons; [| apply Forall_nil].
    split; [keys_present | split].
    + right. eexists. reflexivity.
    + apply Forall_cons; [keys_present | apply Forall_nil].
  - apply Forall_cons; [keys_present | apply Forall_nil].
  - apply Forall_cons; [keys_present | apply Forall_nil].
Defined.

Example full_report_output :
  trace (print_drift_report bare_world full_report)
  = [ Echo report_heading; managed_heading;
      Secho (bullet ++ " s3 - logs (b-1)") yellow false;
      Echo "  Type: storage"; Echo "  Status: drifted";
      changes_line; Echo "    - acl: expected private, got public-read"; Echo "";
      unmanaged_heading;
      Secho (bullet ++ " ec2 - bastion (i-9)") yellow false;
      Echo "  Type: compute"; Echo "";
      missing_heading;
      Secho (bullet ++ " rds - orders (db-3)") red false;
      Echo "  Type: database"; Echo "" ].
Proof. reflexivity. Qed.

(** ** The summary of the state *)

Lemma prefix_app_l (p q s : string) :
  String.prefix (p ++ q) s = true -> String.prefix p s = true.
Proof.
  revert s. induction p as [| c p IH]; intros s H.
  - now destruct s.
  - destruct s as [| d s]; simpl in *; [discriminate |].
    destruct (ascii_dec c d); [now apply IH | discriminate].
Qed.

(** X8.  Every line of the summary of a module starts with the prefix the
    module was given, and the summary consists of lines only; a child module
    is summarised under the prefix of its parent followed by two spaces, so
    its lines start with the parent's prefix too.  This holds at every
    depth and also when the summary ends in an error. *)
Theorem summary_lines_keep_prefix (w : World) (depth : nat) :
  forall module_data prefix,
    Forall (fun e => exists text, e = Echo text /\ String.prefix prefix text = true)
           (trace (print_module_resources w depth module_data prefix)).
Proof.
  induction depth as [| depth IH]; intros module_data prefix.
  - apply events_raise.
  - cbn [print_module_resources]. unfold echo.
    apply events_bind; [apply events_lift | intros resources].
    apply events_bind; [apply events_lift | intros n].
    apply events_bind;
      [apply events_emit; eexists; split; [reflexivity | apply prefix_app] | intros _].
    apply events_bind.
    + apply events_for_each. intros r.
      apply events_bind; [apply events_lift | intros type].
      apply events_bind; [apply events_lift | intros aws].
      destruct aws; [| apply events_ret].
      repeat (apply events_bind; [apply events_lift | intros]).
      apply events_emit. eexists. split; [reflexivity | apply prefix_app].
    + intros _. apply events_bind; [apply events_lift | intros children].
      apply events_for_each. intros child.
      apply events_bind; [apply events_lift | intros address].
      apply events_bind;
        [apply events_emit; eexists; split; [reflexivity | apply prefix_app] | intros _].
      eapply Forall_impl; [| apply (IH child (prefix ++ "  "))].
      intros e (text & -> & Hp). exists text. split; [reflexivity |].
      now apply (prefix_app_l prefix "  ").
Qed.

Lemma flat_map_filter {A B} (p : A -> bool) (f : A -> B) (l : list A) :
  flat_map (fun x => if p x then [f x] else []) l = map f (filter p l).
Proof.
  induction l as [| x l IH]; simpl; [reflexivity |].
  destruct (p x); simpl; now rewrite IH.
Qed.

Lemma resource_summary_line (w : World) (prefix : string) (r : value) :
  resource_ok r ->
  (type <- lift (get_or r "type" (VStr "")) ;;
   aws <- lift (startswith type "aws_") ;;
   if aws : bool then
     type <- lift (subscript r "type") ;;
     name <- lift (get r "name") ;;
     values <- lift (get_or r "values" (VDict [])) ;;
     id <- lift (get_or values "id" (VStr "no id")) ;;
     echo (prefix ++ "  - " ++ py_str w type ++ ": " ++ py_str w name
           ++ " (" ++ py_str w id ++ ")")
   else ret tt)
  = (if is_aws r then [resource_event w prefix r] else [], Returned tt).
Proof.
  intros ((s & Htype) & (vs & Hvalues)).
  unfold is_aws, resource_event, got. rewrite Htype, Hvalues.
  rewrite bind_lift_returned. cbn [startswith]. rewrite bind_lift_returned.
  destruct (Str.startswith s "aws_") eqn:Haws; [| reflexivity].
  destruct r as [| | | | | d]; try discriminate Htype.
  assert (subscript (VDict d) "type" = Returned (VStr s)) as ->.
  { unfold get_or in Htype. unfold subscript.
    destruct (lookup d "type"); [exact Htype |].
    inversion Htype; subst. discriminate Haws. }
  unfold get. cbn [get_or]. rewrite !bind_lift_returned. reflexivity.
Qed.

(** X9.  For a module without child modules, the summary is the line that
    counts all its resources, followed by one line for each resource whose
    type starts with [aws_], in their order; resources of other providers
    are counted and not listed. *)
Theorem flat_module_summary (w : World) (depth : nat) (d : dict) (resources : list value)
        (prefix : string) :
  get_or (VDict d) "resources" (VList []) = Returned (VList resources) ->
  Forall resource_ok resources ->
  get_or (VDict d) "child_modules" (VList []) = Returned (VList []) ->
  print_module_resources w (S depth) (VDict d) prefix
  = (count_event prefix (List.length resources)
       :: map (resource_event w prefix) (filter is_aws resources),
     Returned tt).
Proof.
  intros Hres Hok Hch. cbn [print_module_resources]. rewrite Hres, Hch.
  rewrite bind_lift_returned. cbn [len]. rewrite bind_lift_returned.
  unfold echo at 1. rewrite bind_emit. cbn [for_each].
  rewrite (for_list_returns resources _
             (fun r => if is_aws r then [resource_event w prefix r] else [])).
  - rewrite bind_returned, bind_lift_returned. cbn [for_list trace result fst snd].
    rewrite flat_map_filter, app_nil_r. reflexivity.
  - intros r Hr. apply resource_summary_line. rewrite Forall_forall in Hok. now apply Hok.
Qed.

Lemma flat_module_witness :
  print_module_resources bare_world 1
    (VDict [("resources",
             VList [VDict [("type", VStr "aws_s3_bucket"); ("name", VStr "logs");
                           ("values", VDict [("id", VStr "b-1")])];
                    VDict [("type", VStr "null_resource"); ("name", VStr "wait")]])]) ""
  = ([Echo "- Found 2 resources in module"; Echo "  - aws_s3_bucket: logs (b-1)"],
     Returned tt).
Proof.
  apply (flat_module_summary bare_world 0
           [("resources",
             VList [VDict [("type", VStr "aws_s3_bucket"); ("name", VStr "logs");
                           ("values", VDict [("id", VStr "b-1")])];
                    VDict [("type", VStr "null_resource"); ("name", VStr "wait")]])]
           [VDict [("type", VStr "aws_s3_bucket"); ("name", VStr "logs");
                   ("values", VDict [("id", VStr "b-1")])];
            VDict [("type", VStr "null_resource"); ("name", VStr "wait")]] "").
  - reflexivity.
  - repeat (apply Forall_cons; [split; eexists; reflexivity |]). apply Forall_nil.
  - reflexivity.
Defined.

(** ** The collector runs [terraform] first, and once *)

Lemma trace_validate (w : World) (self : TerraformAnalyzer) :
  trace (validate_terraform_directory w self) = [].
Proof.
  unfold validate_terraform_directory.
  destruct (listdir w (working_dir self)) as [m | names]; [reflexivity |].
  rewrite bind_lift_returned. destruct (tf_files names); [reflexivity |].
  now destruct (negb (path_exists w (path_join (working_dir self) ".terraform"))).
Qed.

(** [get_show_output] fails with validation and does nothing, or starts
    with the run of [terraform] and prints from there on. *)
Lemma get_show_output_shape (w : World) (self : TerraformAnalyzer) :
  (exists e, result (validate_terraform_directory w self) = Raised e
             /\ get_show_output w self = ([], Raised e))
  \/ (result (validate_terraform_directory w self) = Returned tt
      /\ exists rest,
           trace (get_show_output w self) = Run terraform_argv (working_dir self) :: rest
           /\ Forall printed rest).
Proof.
  pose proof (trace_validate w self) as Ht. unfold get_show_output.
  destruct (validate_terraform_directory w self) as [t [[] | e]];
    cbn [trace fst] in Ht; subst t.
  - right. split; [reflexivity |]. rewrite bind_returned. cbn [app].
    rewrite bind_emit. cbn [trace fst]. eexists. split; [reflexivity |].
    apply events_bind; [apply events_lift | intros p].
    destruct (negb (returncode p =? 0)%Z); [apply events_raise |].
    destruct (json_loads w (stdout p)) as [output |]; [| apply events_raise].
    unfold echo. apply events_bind; [apply events_emit; exact I | intros _].
    apply events_bind; [apply events_lift | intros has_values].
    apply events_bind; [| intros; apply events_ret].
    destruct has_values; [| apply events_ret].
    apply events_bind; [apply events_emit; exact I | intros _].
    apply events_bind; [apply events_lift | intros values].
    apply events_bind; [apply events_lift | intros has_root].
    destruct has_root; [| apply events_ret].
    apply events_bind; [apply events_lift | intros values'].
    apply events_bind; [apply events_lift | intros root].
    apply printed_print_module_resources.
  - left. exists e. split; reflexivity.
Qed.

(** X10.  Validation prints nothing.  When it fails, [get_show_output]
    fails with the same error and does nothing else; when it passes, the
    first thing [get_show_output] does is the one run of
    [terraform show -json] in the working directory, and all it does after
    that is print. *)
Theorem get_show_output_runs_terraform_first (w : World) (self : TerraformAnalyzer) :
  trace (validate_terraform_directory w self) = []
  /\ (forall e, result (validate_terraform_directory w self) = Raised e ->
                get_show_output w self = ([], Raised e))
  /\ (result (validate_terraform_directory w self) = Returned tt ->
      exists rest,
        trace (get_show_output w self) = Run terraform_argv (working_dir self) :: rest
        /\ Forall printed rest).
Proof.
  split; [apply trace_validate |].
  destruct (get_show_output_shape w self) as [(e & He & Hrun) | (Hok & Hrun)].
  - split; [| rewrite He; discriminate].
    intros e' H. rewrite He in H. inversion H; subst e'. exact Hrun.
  - split; [rewrite Hok; discriminate |]. intros _. exact Hrun.
Qed.

(** ** One run of [terraform], then one request *)

Lemma command_trace_prefix (dry_run : bool) (pre t : list event) :
  Forall printed pre -> command_trace dry_run t -> command_trace dry_run (pre ++ t).
Proof.
  intros Hpre [H | [(a & cwd & b & -> & Ha & Hb)
                   | (Hdry & a & cwd & b & url & body & headers & c & -> & Ha & Hb & Hc)]].
  - left. apply Forall_app. now split.
  - right. left. exists (pre ++ a)%list, cwd, b. rewrite app_assoc.
    split; [reflexivity |]. split; [apply Forall_app; now split | exact Hb].
  - right. right. split; [exact Hdry |].
    exists (pre ++ a)%list, cwd, b, url, body, headers, c. rewrite app_assoc.
    split; [reflexivity |]. split; [apply Forall_app; now split |]. now split.
Qed.

Lemma command_trace_suffix (dry_run : bool) (t post : list event) :
  Forall printed post -> command_trace dry_run t -> command_trace dry_run (t ++ post).
Proof.
  intros Hpost [H | [(a & cwd & b & -> & Ha & Hb)
                    | (Hdry & a & cwd & b & url & body & headers & c & -> & Ha & Hb & Hc)]].
  - left. apply Forall_app. now split.
  - right. left. exists a, cwd, (b ++ post)%list. rewrite <- app_assoc.
    split; [reflexivity |]. split; [exact Ha | apply Forall_app; now split].
  - right. right. split; [exact Hdry |].
    exists a, cwd, b, url, body, headers, (c ++ post)%list.
    rewrite <- app_assoc. cbn [app]. rewrite <- app_assoc.
    split; [reflexivity |]. split; [exact Ha |]. split; [exact Hb |].
    apply Forall_app. now split.
Qed.

(** X16.  What a run of the command does outside the terminal is, at most,
    one run of [terraform show -json] and, after it and unless the run is
    dry, one request; all the rest is printing.  So [terraform] is run at
    most once and with these arguments only, at most one request is sent,
    none is sent before [terraform] has run, and none in a dry run. *)
Theorem analyze_posts_once_after_run (w : World) (project environment api_key : option string)
        (api_url : string) (dir : option string) (dry_run : bool)
        (config : option string) (local : bool) :
  command_trace dry_run
    (trace (analyze w project environment api_key api_url dir dry_run config local)).
Proof.
  unfold analyze. rewrite trace_try_except. apply command_trace_suffix.
  { match goal with
    | |- context [match ?r with Returned _ => _ | Raised _ => _ end] => destruct r
    end; [constructor | apply printed_on_error]. }
  rewrite trace_bind_eq. apply command_trace_prefix; [apply printed_load_config |].
  destruct (result (load_config w config)) as [cfg |]; [| left; constructor].
  rewrite trace_bind_eq, trace_resolve. cbn [app].
  match goal with
  | |- context [match ?r with Returned _ => _ | Raised _ => _ end] =>
      destruct r as [s |]; [| left; constructor]
  end.
  rewrite trace_bind_eq. cbn [lift trace fst app].
  match goal with
  | |- context [match result ?m with Returned _ => _ | Raised _ => _ end] =>
      destruct (result m) as [api |]; [| left; constructor]
  end.
  unfold echo at 1. rewrite bind_emit. cbn [trace fst].
  match goal with
  | |- command_trace _ (?e :: ?t) => change (command_trace dry_run ([e] ++ t))
  end.
  apply command_trace_prefix; [repeat constructor |].
  rewrite trace_bind_eq.
  destruct (get_show_output_shape w (TerraformAnalyzer_init w (s_working_dir s)))
    as [(e & _ & ->) | (_ & rest & Hrun & Hrest)].
  { left. constructor. }
  rewrite Hrun.
  destruct (result (get_show_output w (TerraformAnalyzer_init w (s_working_dir s))))
    as [show_output |].
  2: { rewrite app_nil_r. right. left.
       exists [], (working_dir (TerraformAnalyzer_init w (s_working_dir s))), rest.
       split; [reflexivity |]. split; [constructor | exact Hrest]. }
  destruct dry_run.
  - right. left.
    exists [], (working_dir (TerraformAnalyzer_init w (s_working_dir s))).
    eexists. split; [reflexivity |]. split; [constructor |].
    apply Forall_app. split; [exact Hrest |].
    unfold secho. apply events_bind; [apply events_emit; exact I | intros _].
    apply events_bind.
    + rewrite analyze_terraform_dry_run. unfold dry_run_output. cbn [trace fst].
      repeat constructor.
    + intros report. apply print_drift_report_only_prints_events.
  - right. right. split; [reflexivity |].
    unfold echo. rewrite bind_emit. cbn [trace fst].
    rewrite trace_bind_eq, trace_analyze_terraform_live.
    exists [], (working_dir (TerraformAnalyzer_init w (s_working_dir s))),
      (rest ++ [Echo (Str.nl ++ "Analyzing infrastructure...")])%list.
    do 4 eexists. split.
    + cbn [app]. rewrite <- app_assoc. reflexivity.
    + split; [constructor |]. split; [apply Forall_app; split; [exact Hrest |] |].
      * repeat constructor.
      * match goal with
        | |- context [match ?r with Returned _ => _ | Raised _ => _ end] =>
            destruct r as [report |];
              [apply print_drift_report_only_prints_events | constructor]
        end.
Qed.

(** ** The loader fails in one way *)

Lemma first_existing_returns (w : World) (locations : list string) (c : option string) :
  exists o, result (first_existing w locations c) = Returned o.
Proof.
  rewrite first_existing_find. destruct (find (path_exists w) locations); eexists; reflexivity.
Qed.

(** X11.  [load_config] fails in one way only, with the usage error "Failed
    to load config file: ..." that carries the text of what went wrong while
    reading or parsing; a file that cannot be opened is reported like one
    that does not parse.  What it returns is never a falsy value other than
    the empty mapping: an empty file gives [{}], not [None]. *)
Theorem load_config_fails_with_usage_error (w : World) (config_file : option string) :
  raises_only (fun e => exists m, e = load_failed m) (load_config w config_file)
  /\ forall v, result (load_config w config_file) = Returned v ->
               v = VDict [] \/ truthy v = true.
Proof.
  assert (forall c : option string,
             let run :=
               match c with
               | Some path =>
                   if negb (truthy (VStr path)) || negb (path_exists w path)
                   then echo "No config file found" ;; ret (VDict [])
                   else
                     try_except
                       (text <- lift (match read_file w path with
                                      | inl m => Raised (OSError m)
                                      | inr text => Returned text
                                      end) ;;
                        loaded <- lift (match yaml_safe_load w text with
                                        | inl m => Raised (YAMLError m)
                                        | inr v => Returned v
                                        end) ;;
                        let config := py_or loaded (VDict []) in
                        echo ("Loaded config: " ++ json_dumps w config) ;;
                        ret config)
                       (fun e => raise (UsageError ("Failed to load config file: "
                                                    ++ exn_str w e)))
               | None => echo "No config file found" ;; ret (VDict [])
               end in
             raises_only (fun e => exists m, e = load_failed m) run
             /\ forall v, result run = Returned v -> v = VDict [] \/ truthy v = true) as Hk.
  { intros [path |]; cbv zeta.
    - destruct (negb (truthy (VStr path)) || negb (path_exists w path)).
      + split; [intros e; discriminate |]. intros v H. inversion H. now left.
      + rewrite result_try_except.
        destruct (read_file w path) as [m | text].
        * split; [| discriminate]. intros e H. inversion H. eexists. reflexivity.
        * rewrite bind_lift_returned.
          destruct (yaml_safe_load w text) as [m | loaded].
          -- split; [| discriminate]. intros e H. inversion H. eexists. reflexivity.
          -- rewrite bind_lift_returned. cbn. split; [discriminate |].
             intros v H. inversion H. unfold py_or.
             destruct (truthy loaded) eqn:E; [now right | now left].
    - split; [intros e; discriminate |]. intros v H. inversion H. now left. }
  unfold load_config.
  assert (exists c, result (if negb (truthy (of_option config_file))
                            then first_existing w (default_locations w) config_file
                            else ret config_file) = Returned c) as [c Hc].
  { destruct (negb (truthy (of_option config_file)));
      [apply first_existing_returns | eexists; reflexivity]. }
  split.
  - intros e. rewrite (result_bind _ _ c Hc). apply (Hk c).
  - intros v. rewrite (result_bind _ _ c Hc). apply (Hk c).
Qed.

(** ** Base URLs that mean the same *)

Lemma string_app_assoc (a b c : string) : (a ++ b) ++ c = a ++ b ++ c.
Proof. induction a as [| x a IH]; simpl; [reflexivity | now rewrite IH]. Qed.

Lemma rstrip_app_strip (chars s t : string) :
  all_in chars t = true -> Str.rstrip chars (s ++ t) = Str.rstrip chars s.
Proof.
  intros Ht. induction s as [| c s IH].
  - simpl. induction t as [| d t IHt]; [reflexivity |].
    simpl in Ht. apply andb_true_iff in Ht as [Hd Ht].
    simpl. rewrite (IHt Ht). now rewrite Hd.
  - simpl. now rewrite IH.
Qed.

Lemma rstrip_app_keep (chars a b : string) :
  Str.rstrip chars b <> "" -> Str.rstrip chars (a ++ b) = a ++ Str.rstrip chars b.
Proof.
  intros Hb. induction a as [| c a IH]; [reflexivity |].
  simpl. rewrite IH. destruct (a ++ Str.rstrip chars b) eqn:E; [| reflexivity].
  destruct a; simpl in E; [contradiction | discriminate].
Qed.

(** [/api/v1] begins nowhere in a string that is followed by [/api/v1]
    unless it begins in the string itself. *)
Lemma prefix_no_straddle (s : string) :
  s <> "" -> String.prefix "/api/v1" (s ++ "/api/v1") = true ->
  String.prefix "/api/v1" s = true.
Proof.
  intros Hs H.
  destruct s as [| c1 s]; [congruence |]. clear Hs.
  cbn [String.prefix append] in H |- *.
  destruct (ascii_dec "/" c1); [| discriminate H].
  destruct s as [| c2 s]; [vm_compute in H; discriminate H |].
  cbn [String.prefix append] in H |- *.
  destruct (ascii_dec "a" c2); [| discriminate H].
  destruct s as [| c3 s]; [vm_compute in H; discriminate H |].
  cbn [String.prefix append] in H |- *.
  destruct (ascii_dec "p" c3); [| discriminate H].
  destruct s as [| c4 s]; [vm_compute in H; discriminate H |].
  cbn [String.prefix append] in H |- *.
  destruct (ascii_dec "i" c4); [| discriminate H].
  destruct s as [| c5 s]; [vm_compute in H; discriminate H |].
  cbn [String.prefix append] in H |- *.
  destruct (ascii_dec "/" c5); [| discriminate H].
  destruct s as [| c6 s]; [vm_compute in H; discriminate H |].
  cbn [String.prefix append] in H |- *.
  destruct (ascii_dec "v" c6); [| discriminate H].
  destruct s as [| c7 s]; [vm_compute in H; discriminate H |].
  cbn [String.prefix append] in H |- *.
  destruct (ascii_dec "1" c7); [| discriminate H].
  now destruct s.
Qed.

Lemma replace_trailing_version (host : string) :
  Str.contains "/api/v1" host = false ->
  Str.replace "/api/v1" "" (host ++ "/api/v1") = host.
Proof.
  induction host as [| c host IH]; intros H.
  - vm_compute. reflexivity.
  - cbn [Str.contains] in H. apply orb_false_iff in H as [Hp Hrest].
    change (String c host ++ "/api/v1") with (String c (host ++ "/api/v1")).
    rewrite replace_keep.
    + now rewrite IH.
    + destruct (String.prefix "/api/v1" (String c (host ++ "/api/v1"))) eqn:E;
        [| reflexivity].
      change (String c (host ++ "/api/v1")) with (String c host ++ "/api/v1") in E.
      apply prefix_no_straddle in E; [congruence | discriminate].
Qed.

(** X12.  A base URL that holds no [/api/v1] and ends with no slash names
    the same client whether it is given as it is, with slashes at its end,
    with [/api/v1] at its end, or with both: the client's base URL is the
    plain one in all four cases, and so is its endpoint. *)
Theorem base_url_forms_agree (w : World) (key : value) (host slashes project : string) :
  Str.contains "/api/v1" host = false ->
  Str.rstrip "/" host = host ->
  all_in "/" slashes = true ->
  let api := {| api_key := key; base_url := host |} in
  CasedAPI_init key (VStr (host ++ slashes)) = Returned api
  /\ CasedAPI_init key (VStr (host ++ "/api/v1" ++ slashes)) = Returned api
  /\ endpoint w api (VStr project) = host ++ "/api/v1/projects/" ++ project ++ "/infra/local".
Proof.
  intros Hclean Hend Hslashes. cbv zeta. unfold CasedAPI_init. split; [| split].
  - rewrite (rstrip_app_strip "/" host slashes Hslashes), Hend.
    now rewrite (replace_absent "/api/v1" "" host) by (discriminate || assumption).
  - rewrite <- string_app_assoc.
    rewrite (rstrip_app_strip "/" (host ++ "/api/v1") slashes Hslashes).
    rewrite (rstrip_app_keep "/" host "/api/v1") by (vm_compute; discriminate).
    replace (Str.rstrip "/" "/api/v1") with "/api/v1" by (vm_compute; reflexivity).
    now rewrite replace_trailing_version.
  - reflexivity.
Qed.

Lemma base_url_forms_witness :
  let api := {| api_key := VStr "k"; base_url := "https://app.cased.com" |} in
  CasedAPI_init (VStr "k") (VStr ("https://app.cased.com" ++ "//")) = Returned api
  /\ CasedAPI_init (VStr "k") (VStr ("https://app.cased.com" ++ "/api/v1" ++ "//"))
     = Returned api
  /\ endpoint bare_world api (VStr "acme")
     = "https://app.cased.com" ++ "/api/v1/projects/" ++ "acme" ++ "/infra/local".
Proof.
  apply (base_url_forms_agree bare_world (VStr "k") "https://app.cased.com" "//" "acme").
  - vm_compute. reflexivity.
  - vm_compute. reflexivity.
  - reflexivity.
Defined.

(** ** Flags and settings *)

Lemma bind_ext {A B} (m : IO A) (k k' : A -> IO B) :
  (forall a, k a = k' a) -> bind m k = bind m k'.
Proof.
  intros H. destruct m as [t [a | e]]; unfold bind; [now rewrite H | reflexivity].
Qed.

Lemma resolve_empty_flags (w : World) (cfg : value)
      (project environment api_key : option string) (api_url : string)
      (dir : option string) (dry_run local : bool) :
  resolve w cfg project environment (option_value w api_key "CASED_API_KEY")
          api_url dir dry_run local
  = resolve w cfg (drop_empty project) (drop_empty environment)
            (option_value w (drop_empty api_key) "CASED_API_KEY")
            api_url dir dry_run local.
Proof.
  unfold resolve.
  assert ((if negb (truthy (of_option (option_value w api_key "CASED_API_KEY")))
           then or_else (of_option (getenv w "CASED_API_KEY")) (lift (get cfg "api_key"))
           else ret (of_option (option_value w api_key "CASED_API_KEY")))
          = (if negb (truthy (of_option (option_value w (drop_empty api_key)
                                                      "CASED_API_KEY")))
             then or_else (of_option (getenv w "CASED_API_KEY"))
                          (lift (get cfg "api_key"))
             else ret (of_option (option_value w (drop_empty api_key) "CASED_API_KEY"))))
    as ->.
  { destruct api_key as [[| c s] |]; try reflexivity.
    cbn [drop_empty option_value of_option truthy String.eqb negb].
    destruct (getenv w "CASED_API_KEY") as [v |]; [| reflexivity].
    destruct (String.eqb_spec v "") as [-> | Hv]; [reflexivity |].
    unfold or_else. cbn [of_option truthy].
    destruct (String.eqb_spec v ""); [contradiction | reflexivity]. }
  assert (forall (o : option string) (y : IO value),
             or_else (of_option o) y = or_else (of_option (drop_empty o)) y) as Hdrop
      by (intros [[| c s] |] y; reflexivity).
  rewrite (Hdrop project), (Hdrop environment). reflexivity.
Qed.

(** X13.  For the project, the environment and the API key, an option given
    with an empty value counts as an option not given: the command runs the
    same with it as without it, with the same output and the same end. *)
Theorem empty_flag_is_no_flag (w : World) (f : flags) :
  cli_analyze w f = cli_analyze w (without_empty_flags f).
Proof.
  unfold cli_analyze, analyze, param_api_key, param_api_url.
  cbn [without_empty_flags f_project f_environment f_api_key f_api_url f_working_dir
       f_dry_run f_config f_local].
  f_equal. apply bind_ext. intros cfg.
  now rewrite resolve_empty_flags.
Qed.

(** [resolve] on a configuration that is a mapping: it prints nothing, and
    checks the project, the environment, the directory and the key in this
    order. *)
Lemma resolve_dict (w : World) (d : dict) (project environment api_key : option string)
      (api_url : string) (dir : option string) (dry_run local : bool) :
  resolve w (VDict d) project environment api_key api_url dir dry_run local
  = ([],
     if negb (truthy (py_or (of_option project) (config_value d "project")))
     then Raised project_missing
     else if negb (truthy (py_or (of_option environment) (config_value d "environment")))
          then Raised environment_missing
          else match directory_setting w d dir with
               | Raised e => Raised e
               | Returned chosen =>
                   if negb dry_run && negb (truthy (resolved_api_key w d api_key))
                   then Raised key_missing
                   else Returned
                          {| s_project := py_or (of_option project)
                                                (config_value d "project");
                             s_environment := py_or (of_option environment)
                                                    (config_value d "environment");
                             s_api_key := resolved_api_key w d api_key;
                             s_api_url := resolved_api_url w d api_url local;
                             s_working_dir := chosen |}
               end).
Proof.
  unfold resolve. rewrite !get_dict. rewrite !or_else_returned. cbn [get_or].
  rewrite or_else_returned.
  assert ((if negb (truthy (of_option api_key))
           then ret (py_or (of_option (getenv w "CASED_API_KEY")) (config_value d "api_key"))
           else ret (of_option api_key)) = ret (resolved_api_key w d api_key)) as ->
      by (unfold resolved_api_key; now destruct (truthy (of_option api_key))).
  assert ((if local then ret (VStr "http://localhost:3000")
           else if String.eqb api_url default_api_url
                then ret (py_or (of_option (getenv w "CASED_API_URL"))
                                (match lookup d "api_url" with
                                 | Some x => x
                                 | None => VStr api_url
                                 end))
                else ret (VStr api_url)) = ret (resolved_api_url w d api_url local)) as ->
      by (unfold resolved_api_url; destruct local;
          [| destruct (String.eqb api_url default_api_url)]; reflexivity).
  rewrite !bind_ret.
  destruct (truthy (py_or (of_option project) (config_value d "project")));
    [| reflexivity].
  destruct (truthy (py_or (of_option environment) (config_value d "environment")));
    [| reflexivity].
  cbn [negb]. unfold directory_setting.
  destruct (truthy (of_option dir)); cbn [negb].
  - rewrite bind_ret.
    now destruct (negb dry_run && negb (truthy (resolved_api_key w d api_key))).
  - rewrite bind_lift_returned.
    destruct (truthy (config_value d "working_dir")).
    + rewrite bind_lift_returned.
      destruct (expanduser_value w (config_value d "working_dir")) as [chosen | e].
      * rewrite bind_lift_returned, bind_ret.
        now destruct (negb dry_run && negb (truthy (resolved_api_key w d api_key))).
      * reflexivity.
    + rewrite bind_ret.
      now destruct (negb dry_run && negb (truthy (resolved_api_key w d api_key))).
Qed.

(** X14.  The directory terraform runs in, when the settings resolve from a
    configuration that is a mapping: the [--working-dir] flag when it is
    given and not empty; without it, the [working_dir] of the configuration
    with its [~] expanded; without either, the current directory.  A
    configured [working_dir] that is not a string is a [TypeError] once the
    project and the environment are known. *)
Theorem working_dir_precedence (w : World) (d : dict)
        (project environment api_key : option string) (api_url : string)
        (dir : option string) (dry_run local : bool) :
  let r := result (resolve w (VDict d) project environment api_key api_url dir
                           dry_run local) in
  let configured := config_value d "working_dir" in
  let runs_in (s : settings) := working_dir (TerraformAnalyzer_init w (s_working_dir s)) in
  (forall s flag, r = Returned s -> dir = Some flag -> flag <> "" -> runs_in s = flag)
  /\ (forall s p, r = Returned s -> truthy (of_option dir) = false ->
                  configured = VStr p -> p <> "" ->
                  runs_in s = if String.eqb (expanduser w p) "" then getcwd w
                              else expanduser w p)
  /\ (forall s, r = Returned s -> truthy (of_option dir) = false ->
                truthy configured = false -> runs_in s = getcwd w)
  /\ (truthy (py_or (of_option project) (config_value d "project")) = true ->
      truthy (py_or (of_option environment) (config_value d "environment")) = true ->
      truthy (of_option dir) = false -> truthy configured = true ->
      (forall p, configured <> VStr p) -> r = Raised TypeError).
Proof.
  cbv zeta. rewrite resolve_dict. cbn [result snd].
  unfold directory_setting, TerraformAnalyzer_init.
  split; [| split; [| split]].
  - intros s flag H -> Hflag. cbn [of_option] in H.
    rewrite (truthy_nonempty flag Hflag) in H.
    destruct (negb (truthy (py_or (of_option project) (config_value d "project"))));
      [discriminate |].
    destruct (negb (truthy (py_or (of_option environment)
                                  (config_value d "environment"))));
      [discriminate |].
    destruct (negb dry_run && negb (truthy (resolved_api_key w d api_key)));
      [discriminate |].
    inversion H. cbn [s_working_dir working_dir of_option].
    now rewrite (truthy_nonempty flag Hflag).
  - intros s p H Hdir Hcfg Hp. rewrite Hdir, Hcfg, (truthy_nonempty p Hp) in H.
    cbn [expanduser_value] in H.
    destruct (negb (truthy (py_or (of_option project) (config_value d "project"))));
      [discriminate |].
    destruct (negb (truthy (py_or (of_option environment)
                                  (config_value d "environment"))));
      [discriminate |].
    destruct (negb dry_run && negb (truthy (resolved_api_key w d api_key)));
      [discriminate |].
    inversion H. cbn [s_working_dir working_dir of_option truthy].
    now destruct (String.eqb (expanduser w p) "").
  - intros s H Hdir Hcfg. rewrite Hdir, Hcfg in H.
    destruct (negb (truthy (py_or (of_option project) (config_value d "project"))));
      [discriminate |].
    destruct (negb (truthy (py_or (of_option environment)
                                  (config_value d "environment"))));
      [discriminate |].
    destruct (negb dry_run && negb (truthy (resolved_api_key w d api_key)));
      [discriminate |].
    inversion H. cbn [s_working_dir working_dir]. now rewrite Hdir.
  - intros Hp He Hdir Hcfg Hstr. rewrite Hp, He, Hdir, Hcfg. cbn [negb].
    destruct (config_value d "working_dir") as [| b | z | p | items | entries];
      try reflexivity.
    now destruct (Hstr p).
Qed.

(** The configured directory is used when no flag names one. *)
Example configured_directory_is_used :
  exists s,
    cli_resolve home_world (VDict directory_config)
                {| f_project := Some "acme"; f_environment := None; f_api_key := None;
                   f_api_url := None; f_working_dir := None; f_dry_run := true;
                   f_config := None; f_local := false |}
    = ([], Returned s)
    /\ working_dir (TerraformAnalyzer_init home_world (s_working_dir s))
       = expanduser home_world "~/infra".
Proof. eexists. split; vm_compute; reflexivity. Qed.

(** X15.  With a configuration that is a mapping, the settings are checked
    in a fixed order, and the first failure is the one reported: a missing
    project whatever else is missing; a missing environment when the project
    is there; a missing API key only when project and environment are there,
    the directory setting is usable and the run is not dry. *)
Theorem required_settings_in_order (w : World) (d : dict)
        (project environment api_key : option string) (api_url : string)
        (dir : option string) (dry_run local : bool) :
  let r := result (resolve w (VDict d) project environment api_key api_url dir
                           dry_run local) in
  let p := py_or (of_option project) (config_value d "project") in
  let e := py_or (of_option environment) (config_value d "environment") in
  (r = Raised project_missing <-> truthy p = false)
  /\ (r = Raised environment_missing <-> truthy p = true /\ truthy e = false)
  /\ (r = Raised key_missing <->
      truthy p = true /\ truthy e = true /\ directory_usable d dir
      /\ dry_run = false /\ truthy (resolved_api_key w d api_key) = false).
Proof.
  cbv zeta. rewrite resolve_dict. cbn [result snd].
  unfold directory_setting, directory_usable.
  destruct (truthy (py_or (of_option project) (config_value d "project"))); cbn [negb].
  2: { split; [| split]; split; try tauto; try discriminate.
       - intros [H _]. discriminate.
       - intros [H _]. discriminate. }
  destruct (truthy (py_or (of_option environment) (config_value d "environment")));
    cbn [negb].
  2: { split; [| split]; split; try tauto; try discriminate.
       intros (_ & H & _). discriminate. }
  split; [| split].
  - split; [| discriminate].
    destruct (truthy (of_option dir));
      [| destruct (truthy (config_value d "working_dir"));
         [destruct (config_value d "working_dir"); cbn [expanduser_value] |]];
      try discriminate;
      destruct (negb dry_run && negb (truthy (resolved_api_key w d api_key)));
      discriminate.
  - split; [| intros [_ H]; discriminate].
    destruct (truthy (of_option dir));
      [| destruct (truthy (config_value d "working_dir"));
         [destruct (config_value d "working_dir"); cbn [expanduser_value] |]];
      try discriminate;
      destruct (negb dry_run && negb (truthy (resolved_api_key w d api_key)));
      discriminate.
  - destruct (truthy (of_option dir)) eqn:Hdir.
    + destruct dry_run; cbn [negb andb];
        [split; [discriminate | intros (_ & _ & _ & H & _); discriminate] |].
      destruct (truthy (resolved_api_key w d api_key)); cbn [negb].
      * split; [discriminate | intros (_ & _ & _ & _ & H); discriminate].
      * split; [| reflexivity]. intros _. repeat split. now left.
    + destruct (truthy (config_value d "working_dir")) eqn:Hcfg.
      * destruct (config_value d "working_dir") as [| b | z | s | items | entries] eqn:Hv;
          cbn [expanduser_value];
          try (split; [discriminate |];
               intros (_ & _ & [H | [H | [q H]]] & _); discriminate).
        destruct dry_run; cbn [negb andb];
          [split; [discriminate | intros (_ & _ & _ & H & _); discriminate] |].
        destruct (truthy (resolved_api_key w d api_key)); cbn [negb].
        -- split; [discriminate | intros (_ & _ & _ & _ & H); discriminate].
        -- split; [| reflexivity]. intros _. repeat split. right. right. now exists s.
      * destruct dry_run; cbn [negb andb];
          [split; [discriminate | intros (_ & _ & _ & H & _); discriminate] |].
        destruct (truthy (resolved_api_key w d api_key)); cbn [negb].
        -- split; [discriminate | intros (_ & _ & _ & _ & H); discriminate].
        -- split; [| reflexivity]. intros _. repeat split. right. now left.
Qed.

(** ** What the state reader returns *)

(** X17.  What [get_show_output] returns is the parsed standard output of
    the run of [terraform show -json], as it is: the run ended with exit
    code 0, and the summary that is printed on the way changes nothing of
    the document. *)
Theorem get_show_output_returns_parsed_state (w : World) (self : TerraformAnalyzer)
        (v : value) :
  result (get_show_output w self) = Returned v ->
  exists p,
    terraform_show w (working_dir self) = inr p
    /\ returncode p = 0%Z
    /\ json_loads w (stdout p) = Some v.
Proof.
  unfold get_show_output. intros H.
  apply result_bind_inv in H as ([] & _ & H).
  apply result_bind_inv in H as ([] & _ & H).
  apply result_bind_inv in H as (p & Hp & H).
  destruct (terraform_show w (working_dir self)) as [m | p'];
    cbn [lift result snd] in Hp; [discriminate |].
  inversion Hp; subst p'. exists p.
  destruct (returncode p =? 0)%Z eqn:Hrc; cbn [negb] in H; [| discriminate].
  apply Z.eqb_eq in Hrc.
  destruct (json_loads w (stdout p)) as [output |]; [| discriminate].
  apply result_bind_inv in H as ([] & _ & H).
  apply result_bind_inv in H as (has_values & _ & H).
  apply result_bind_inv in H as ([] & _ & H).
  inversion H. now repeat split.
Qed.

Lemma get_show_output_returns_witness :
  exists p,
    terraform_show (terraform_world ["main.tf"] true (clean_exit "{...}")
                                    (Some sample_state)) "/work"
    = inr p
    /\ returncode p = 0%Z
    /\ json_loads (terraform_world ["main.tf"] true (clean_exit "{...}")
                                   (Some sample_state)) (stdout p)
       = Some sample_state.
Proof.
  apply (get_show_output_returns_parsed_state
           (terraform_world ["main.tf"] true (clean_exit "{...}") (Some sample_state))
           {| working_dir := "/work" |} sample_state).
  vm_compute. reflexivity.
Defined.
